(** * pymp4: the MP4 box codec ([pymp4.parser]) and the tree utilities
    ([pymp4.util])

    [pymp4.parser] declares every box as a value of the [construct] library
    (version 2.10): a pair of a parser and a builder obtained from
    combinators.  The development follows that structure: a [Construct] is a
    record holding the parse and the build function, the combinators of the
    library are functions on such records, and the schemas of
    [pymp4/parser.py] are transcribed with them, one definition per schema
    and under the name the source gives it. *)

From Stdlib Require Import ZArith List String Ascii Bool Lia ZifyBool.
From Stdlib Require Import Strings.Byte.
Import ListNotations.
Local Open Scope string_scope.
Local Open Scope list_scope.
Local Open Scope Z_scope.

Set Warnings "-register-all".

(* ================================================================== *)
(** * Bytes and integers *)
(* ================================================================== *)

Definition bytes := list byte.

(** The literal [b"ftyp"] of the source is written [b_ "ftyp"]. *)
Definition b_ (s : string) : bytes := list_byte_of_string s.

Definition byte2int (c : byte) : Z := Z.of_N (Byte.to_N c).

Definition int2byte (z : Z) : byte :=
  match Byte.of_N (Z.to_N (z mod 256)) with
  | Some c => c
  | None => x00
  end.

Fixpoint bytes_eqb (x y : bytes) : bool :=
  match x, y with
  | [], [] => true
  | a :: x', c :: y' => Byte.eqb a c && bytes_eqb x' y'
  | _, _ => false
  end.

(** [take n data] splits off the first [n] bytes, the way a read on a stream
    does; [None] when fewer than [n] are left. *)
Fixpoint take (n : Z) (data : bytes) {struct data} : option (bytes * bytes) :=
  if n <=? 0 then Some ([], data)
  else match data with
       | [] => None
       | c :: data' =>
           match take (n - 1) data' with
           | Some (h, t) => Some (c :: h, t)
           | None => None
           end
       end.

(** Big-endian integers ([struct.unpack(">L")], [int.from_bytes]). *)
Definition bytes2integer_unsigned (data : bytes) : Z :=
  fold_left (fun acc c => acc * 256 + byte2int c) data 0.

Definition bytes2integer (data : bytes) (signed : bool) : Z :=
  let n := bytes2integer_unsigned data in
  let w := 8 * Z.of_nat (List.length data) in
  if signed && (2 ^ w <=? 2 * n) then n - 2 ^ w else n.

Fixpoint integer2bytes_unsigned (width : nat) (n : Z) : bytes :=
  match width with
  | O => []
  | S w => integer2bytes_unsigned w (n / 256) ++ [int2byte n]
  end.

Definition in_range (n : Z) (bits : Z) (signed : bool) : bool :=
  if signed then (- 2 ^ bits <=? 2 * n) && (2 * n <? 2 ^ bits)
  else (0 <=? n) && (n <? 2 ^ bits).

Definition integer2bytes (n : Z) (width : nat) (signed : bool) : option bytes :=
  let w := 8 * Z.of_nat width in
  if in_range n w signed
  then Some (integer2bytes_unsigned width (if n <? 0 then n + 2 ^ w else n))
  else None.

(** ** Bit strings

    Inside [Bitwise] the library works on a byte string that holds one bit
    per byte ([\x00] or [\x01]), most significant bit first. *)

Definition bit_of (c : byte) (i : Z) : byte :=
  if Z.testbit (byte2int c) i then x01 else x00.

Definition byte2bits (c : byte) : bytes :=
  [bit_of c 7; bit_of c 6; bit_of c 5; bit_of c 4;
   bit_of c 3; bit_of c 2; bit_of c 1; bit_of c 0].

Definition bytes2bits (data : bytes) : bytes := flat_map byte2bits data.

Definition is_bit (c : byte) : bool :=
  match c with x00 | x01 => true | _ => false end.

Definition bits2integer_unsigned (data : bytes) : Z :=
  fold_left (fun acc c => 2 * acc + byte2int c) data 0.

Definition bits2integer (data : bytes) (signed : bool) : Z :=
  let n := bits2integer_unsigned data in
  let w := Z.of_nat (List.length data) in
  if signed && (2 ^ w <=? 2 * n) then n - 2 ^ w else n.

(** [bits2bytes] fails ([None]) when the length is no multiple of 8 or an
    element is no bit. *)
Fixpoint bits2bytes (data : bytes) : option bytes :=
  match data with
  | [] => Some []
  | b7 :: b6 :: b5 :: b4 :: b3 :: b2 :: b1 :: b0 :: data' =>
      let group := [b7; b6; b5; b4; b3; b2; b1; b0] in
      if forallb is_bit group then
        match bits2bytes data' with
        | Some out => Some (int2byte (bits2integer_unsigned group) :: out)
        | None => None
        end
      else None
  | _ => None
  end.

Fixpoint integer2bits_unsigned (width : nat) (n : Z) : bytes :=
  match width with
  | O => []
  | S w => integer2bits_unsigned w (n / 2) ++ [if Z.odd n then x01 else x00]
  end.

Definition integer2bits (n : Z) (width : nat) (signed : bool) : option bytes :=
  let w := Z.of_nat width in
  if in_range n w signed
  then Some (integer2bits_unsigned width (if n <? 0 then n + 2 ^ w else n))
  else None.

(** ** UTF-8

    A Python [str] is represented by its UTF-8 encoding (a Rocq [string]):
    [bytes.decode("utf8")] checks the encoding and [str.encode("utf8")]
    gives it back. *)

Definition in_byte_range (c : byte) (lo hi : Z) : bool :=
  (lo <=? byte2int c) && (byte2int c <=? hi).

Fixpoint utf8_valid (data : bytes) : bool :=
  match data with
  | [] => true
  | c0 :: t0 =>
      let z0 := byte2int c0 in
      if z0 <? 0x80 then utf8_valid t0
      else if z0 <? 0xC2 then false
      else if z0 <? 0xE0 then
        match t0 with
        | c1 :: t1 => in_byte_range c1 0x80 0xBF && utf8_valid t1
        | _ => false
        end
      else if z0 <? 0xF0 then
        match t0 with
        | c1 :: c2 :: t2 =>
            in_byte_range c1 (if z0 =? 0xE0 then 0xA0 else 0x80)
                             (if z0 =? 0xED then 0x9F else 0xBF)
            && in_byte_range c2 0x80 0xBF && utf8_valid t2
        | _ => false
        end
      else if z0 <? 0xF5 then
        match t0 with
        | c1 :: c2 :: c3 :: t3 =>
            in_byte_range c1 (if z0 =? 0xF0 then 0x90 else 0x80)
                             (if z0 =? 0xF4 then 0x8F else 0xBF)
            && in_byte_range c2 0x80 0xBF && in_byte_range c3 0x80 0xBF
            && utf8_valid t3
        | _ => false
        end
      else false
  end.

Definition utf8_decode (data : bytes) : option string :=
  if utf8_valid data then Some (string_of_list_byte data) else None.

Definition utf8_encode (s : string) : bytes := list_byte_of_string s.

(* ================================================================== *)
(** * Python values, exceptions and results *)
(* ================================================================== *)

(** The objects a parse produces: [None], [bool], [int], [bytes], [str],
    [uuid.UUID] (by its 16 bytes), [ListContainer] and [Container] (an
    insertion-ordered dictionary). *)
Inductive value : Type :=
| VNone
| VBool (flag : bool)
| VInt (z : Z)
| VBytes (data : bytes)
| VStr (s : string)
| VUUID (data : bytes)
| VList (items : list value)
| VContainer (items : list (string * value)).

Definition container := list (string * value).

Fixpoint getitem (name : string) (c : container) : option value :=
  match c with
  | [] => None
  | (k, v) :: c' => if String.eqb k name then Some v else getitem name c'
  end.

(** [c[name] = v]: replaces in place, or appends. *)
Fixpoint setitem (name : string) (v : value) (c : container) : container :=
  match c with
  | [] => [(name, v)]
  | (k, w) :: c' =>
      if String.eqb k name then (k, v) :: c' else (k, w) :: setitem name v c'
  end.

(** [context.update(obj)]. *)
Definition update (c obj : container) : container :=
  fold_left (fun acc kv => setitem (fst kv) (snd kv) acc) obj c.

Definition truthy (v : value) : bool :=
  match v with
  | VNone => false
  | VBool flag => flag
  | VInt z => negb (z =? 0)
  | VBytes data => negb (Nat.eqb (List.length data) 0)
  | VStr s => negb (Nat.eqb (String.length s) 0)
  | VUUID _ => true
  | VList items => negb (Nat.eqb (List.length items) 0)
  | VContainer items => negb (Nat.eqb (List.length items) 0)
  end.

(** An [int] where Python accepts one ([bool] is a subclass of [int]). *)
Definition as_int (v : value) : option Z :=
  match v with
  | VInt z => Some z
  | VBool flag => Some (if flag then 1 else 0)
  | _ => None
  end.

(** The exceptions of the library (subclasses of [ConstructError]), the
    built-in ones a schema can raise, and [pymp4.exceptions.BoxNotFound]. *)
Inductive exn : Type :=
| StreamError | FormatFieldError | IntegerError | StringError | ConstError
| RangeError | MappingError | SelectError | PaddingError | SizeofError
| KeyError | TypeError | AttributeError | ValueError
| BoxNotFound.

Definition is_ConstructError (e : exn) : bool :=
  match e with
  | KeyError | TypeError | AttributeError | ValueError | BoxNotFound => false
  | _ => true
  end.

(** A call returns, raises, or is cut off because the recursion budget of
    the model ran out ([OutOfFuel]; Python has no such outcome). *)
Inductive result (A : Type) : Type :=
| Ok (a : A)
| Raise (e : exn)
| OutOfFuel.
Arguments Ok {A} a.
Arguments Raise {A} e.
Arguments OutOfFuel {A}.

Definition bind {A B} (r : result A) (k : A -> result B) : result B :=
  match r with
  | Ok a => k a
  | Raise e => Raise e
  | OutOfFuel => OutOfFuel
  end.

Notation "x <- e ;; k" := (bind e (fun x => k))
  (at level 61, e at next level, right associativity).
Notation "' p <- e ;; k" := (bind e (fun x => match x with p => k end))
  (at level 61, p pattern, e at next level, right associativity).

Definition of_option {A} (o : option A) (e : exn) : result A :=
  match o with Some a => Ok a | None => Raise e end.

(* ================================================================== *)
(** * Streams *)
(* ================================================================== *)

(** A read-only [io.BytesIO]: the position and the bytes after it. *)
Record stream : Type := mkstream { tell : Z; remaining : bytes }.

Definition BytesIO (data : bytes) : stream := mkstream 0 data.

Definition stream_read (s : stream) (n : Z) : result (bytes * stream) :=
  if n <? 0 then Raise StreamError
  else match take n (remaining s) with
       | Some (data, rest) => Ok (data, mkstream (tell s + n) rest)
       | None => Raise StreamError
       end.

Definition stream_read_entire (s : stream) : bytes * stream :=
  (remaining s, mkstream (tell s + Z.of_nat (List.length (remaining s))) []).

(* ================================================================== *)
(** * Contexts and expressions *)
(* ================================================================== *)

(** The context of a parse or build: the frame of the innermost [Struct]
    first, then the frame its [_] entry points to, and so on up to the root
    context, which is empty. *)
Definition context := list container.

Definition root_context : context := [[]].

Definition expr := context -> result value.

Fixpoint getattr_path (names : list string) (v : value) : result value :=
  match names with
  | [] => Ok v
  | name :: names' =>
      match v with
      | VContainer c =>
          match getitem name c with
          | Some w => getattr_path names' w
          | None => Raise KeyError
          end
      | _ => Raise AttributeError
      end
  end.

(** [this.a.b], [this._.a.b] and [this._._.a.b]. *)
Definition this (names : list string) : expr :=
  fun ctx => match ctx with
             | c :: _ => getattr_path names (VContainer c)
             | [] => Raise KeyError
             end.

Definition this_ (names : list string) : expr := fun ctx => this names (tl ctx).

Definition this__ (names : list string) : expr :=
  fun ctx => this names (tl (tl ctx)).

Definition lit_int (z : Z) : expr := fun _ => Ok (VInt z).

(** [e == n] for an integer literal [n]. *)
Definition eq_int (e : expr) (n : Z) : expr :=
  fun ctx => v <- e ctx ;;
             Ok (VBool (match as_int v with Some z => z =? n | None => false end)).

(** [e >= n]. *)
Definition ge_int (e : expr) (n : Z) : expr :=
  fun ctx => v <- e ctx ;;
             match as_int v with
             | Some z => Ok (VBool (n <=? z))
             | None => Raise TypeError
             end.

(** [e != data] for a bytes literal. *)
Definition ne_bytes (e : expr) (data : bytes) : expr :=
  fun ctx => v <- e ctx ;;
             Ok (VBool (match v with
                        | VBytes d => negb (bytes_eqb d data)
                        | _ => true
                        end)).

(** [~e]: the library maps [~] on an expression to [operator.not_]. *)
Definition not_ (e : expr) : expr :=
  fun ctx => v <- e ctx ;; Ok (VBool (negb (truthy v))).

(** [e1 & e2] ([operator.and_]): defined on integers and booleans. *)
Definition and_ (e1 e2 : expr) : expr :=
  fun ctx => v1 <- e1 ctx ;; v2 <- e2 ctx ;;
             match v1, v2 with
             | VBool x, VBool y => Ok (VBool (x && y))
             | _, _ =>
                 match as_int v1, as_int v2 with
                 | Some x, Some y => Ok (VInt (Z.land x y))
                 | _, _ => Raise TypeError
                 end
             end.

(** [len_(e)]. *)
Definition len_ (e : expr) : expr :=
  fun ctx => v <- e ctx ;;
             match v with
             | VList items => Ok (VInt (Z.of_nat (List.length items)))
             | VBytes data => Ok (VInt (Z.of_nat (List.length data)))
             | VStr s => Ok (VInt (Z.of_nat (String.length s)))
             | VContainer items => Ok (VInt (Z.of_nat (List.length items)))
             | _ => Raise TypeError
             end.

(** The literals of the schemas: integers, byte strings and UUIDs. *)
Inductive literal : Type :=
| LInt (z : Z)
| LBytes (data : bytes)
| LUUID (data : bytes).

Definition value_of_literal (l : literal) : value :=
  match l with
  | LInt z => VInt z
  | LBytes data => VBytes data
  | LUUID data => VUUID data
  end.

(** [v == l]. *)
Definition eq_literal (v : value) (l : literal) : bool :=
  match l, v with
  | LInt n, (VInt _ | VBool _) =>
      match as_int v with Some z => z =? n | None => false end
  | LBytes d, VBytes d' => bytes_eqb d' d
  | LUUID d, VUUID d' => bytes_eqb d' d
  | _, _ => false
  end.

(* ================================================================== *)
(** * Constructs *)
(* ================================================================== *)

(** A construct: [_parse(stream, context)] returns the object and leaves the
    stream advanced; [_build(obj, stream, context)] returns the build value
    and the bytes it wrote; [sizeof()] is [None] when the library raises
    [SizeofError]; [flagbuildnone] tells [Struct] that the field may be
    missing from the object built. *)
Record Construct : Type := mkConstruct {
  parse : stream -> context -> result (value * stream);
  build : value -> context -> result (value * bytes);
  sizeof : option Z;
  flagbuildnone : bool
}.

Definition subcon_field := (option string * Construct)%type.

(** ["name" / subcon] is written ["name" /: subcon]; a field without a name
    is [anon subcon]. *)
Definition named (name : string) (sc : Construct) : subcon_field := (Some name, sc).
Definition anon (sc : Construct) : subcon_field := (None, sc).
Notation "name /: sc" := (named name sc) (at level 40, no associativity).

(** ** Leaves *)

Definition Pass : Construct :=
  {| parse := fun s _ => Ok (VNone, s);
     build := fun obj _ => Ok (obj, []);
     sizeof := Some 0;
     flagbuildnone := true |}.

(** [FormatField]: the integers packed with [struct]. *)
Definition FormatField (width : nat) (signed : bool) : Construct :=
  {| parse := fun s _ =>
       '(data, s') <- stream_read s (Z.of_nat width) ;;
       Ok (VInt (bytes2integer data signed), s');
     build := fun obj _ =>
       match as_int obj with
       | Some z =>
           data <- of_option (integer2bytes z width signed) FormatFieldError ;;
           Ok (obj, data)
       | None => Raise FormatFieldError
       end;
     sizeof := Some (Z.of_nat width);
     flagbuildnone := false |}.

Definition Int8ub := FormatField 1 false.
Definition Int16ub := FormatField 2 false.
Definition Int16sb := FormatField 2 true.
Definition Int32ub := FormatField 4 false.
Definition Int32sb := FormatField 4 true.
Definition Int64ub := FormatField 8 false.

Definition BytesInteger (width : nat) (signed : bool) : Construct :=
  {| parse := fun s _ =>
       '(data, s') <- stream_read s (Z.of_nat width) ;;
       Ok (VInt (bytes2integer data signed), s');
     build := fun obj _ =>
       match as_int obj with
       | Some z =>
           data <- of_option (integer2bytes z width signed) IntegerError ;;
           Ok (obj, data)
       | None => Raise IntegerError
       end;
     sizeof := Some (Z.of_nat width);
     flagbuildnone := false |}.

Definition Int24ub := BytesInteger 3 false.

Definition Bytes (n : Z) : Construct :=
  {| parse := fun s _ =>
       '(data, s') <- stream_read s n ;; Ok (VBytes data, s');
     build := fun obj _ =>
       data <- match obj with
               | VBytes d => Ok d
               | VInt z => of_option (integer2bytes z (Z.to_nat n) false) IntegerError
               | _ => Raise StringError
               end ;;
       if Z.of_nat (List.length data) =? n then Ok (VBytes data, data)
       else Raise StreamError;
     sizeof := Some n;
     flagbuildnone := false |}.

(** [Bytes(this.x)]: the length is read from the context. *)
Definition Bytes_ (n : expr) : Construct :=
  {| parse := fun s ctx =>
       v <- n ctx ;;
       match as_int v with
       | Some z => parse (Bytes z) s ctx
       | None => Raise TypeError
       end;
     build := fun obj ctx =>
       v <- n ctx ;;
       match as_int v with
       | Some z => build (Bytes z) obj ctx
       | None => Raise TypeError
       end;
     sizeof := None;
     flagbuildnone := false |}.

Definition GreedyBytes : Construct :=
  {| parse := fun s _ =>
       let '(data, s') := stream_read_entire s in Ok (VBytes data, s');
     build := fun obj _ =>
       match obj with
       | VBytes d => Ok (VBytes d, d)
       | _ => Raise StringError
       end;
     sizeof := None;
     flagbuildnone := false |}.

Definition Flag : Construct :=
  {| parse := fun s _ =>
       '(data, s') <- stream_read s 1 ;;
       Ok (VBool (negb (bytes_eqb data [x00])), s');
     build := fun obj _ => Ok (obj, [if truthy obj then x01 else x00]);
     sizeof := Some 1;
     flagbuildnone := false |}.

(** [BitsInteger(n)], unsigned: reads [n] bits of a bit string. *)
Definition BitsInteger (n : nat) : Construct :=
  {| parse := fun s _ =>
       '(data, s') <- stream_read s (Z.of_nat n) ;;
       Ok (VInt (bits2integer data false), s');
     build := fun obj _ =>
       match as_int obj with
       | Some z =>
           data <- of_option (integer2bits z n false) IntegerError ;;
           Ok (obj, data)
       | None => Raise IntegerError
       end;
     sizeof := Some (Z.of_nat n);
     flagbuildnone := false |}.

(** ** Wrappers of one construct *)

Definition Const (value : literal) (subcon : Construct) : Construct :=
  {| parse := fun s ctx =>
       '(obj, s') <- parse subcon s ctx ;;
       if eq_literal obj value then Ok (obj, s') else Raise ConstError;
     build := fun obj ctx =>
       match obj with
       | VNone => build subcon (value_of_literal value) ctx
       | _ => if eq_literal obj value
              then build subcon (value_of_literal value) ctx
              else Raise ConstError
       end;
     sizeof := sizeof subcon;
     flagbuildnone := true |}.

(** [Const(b"....")]: the construct is [Bytes(len(value))]. *)
Definition ConstBytes (data : bytes) : Construct :=
  Const (LBytes data) (Bytes (Z.of_nat (List.length data))).

Definition Default (subcon : Construct) (value : value) : Construct :=
  {| parse := parse subcon;
     build := fun obj ctx =>
       build subcon (match obj with VNone => value | _ => obj end) ctx;
     sizeof := sizeof subcon;
     flagbuildnone := true |}.

Definition Rebuild (subcon : Construct) (func : expr) : Construct :=
  {| parse := parse subcon;
     build := fun _ ctx => obj <- func ctx ;; build subcon obj ctx;
     sizeof := sizeof subcon;
     flagbuildnone := true |}.

Definition repeat_byte (c : byte) (n : Z) : bytes := repeat c (Z.to_nat n).

Definition Padded (length : Z) (subcon : Construct) (pattern : byte) : Construct :=
  {| parse := fun s ctx =>
       if length <? 0 then Raise PaddingError else
       '(obj, s') <- parse subcon s ctx ;;
       let pad := length - (tell s' - tell s) in
       if pad <? 0 then Raise PaddingError else
       '(_, s'') <- stream_read s' pad ;;
       Ok (obj, s'');
     build := fun obj ctx =>
       if length <? 0 then Raise PaddingError else
       '(buildret, data) <- build subcon obj ctx ;;
       let pad := length - Z.of_nat (List.length data) in
       if pad <? 0 then Raise PaddingError else
       Ok (buildret, data ++ repeat_byte pattern pad);
     sizeof := Some length;
     flagbuildnone := flagbuildnone subcon |}.

Definition Padding (length : Z) : Construct := Padded length Pass x00.

Definition Peek (subcon : Construct) : Construct :=
  {| parse := fun s ctx =>
       match parse subcon s ctx with
       | Ok (obj, _) => Ok (obj, s)
       | Raise e => if is_ConstructError e then Ok (VNone, s) else Raise e
       | OutOfFuel => OutOfFuel
       end;
     build := fun obj _ => Ok (obj, []);
     sizeof := Some 0;
     flagbuildnone := true |}.

Definition Adapter (subcon : Construct)
    (decode encode : value -> context -> result value) : Construct :=
  {| parse := fun s ctx =>
       '(obj, s') <- parse subcon s ctx ;;
       obj' <- decode obj ctx ;;
       Ok (obj', s');
     build := fun obj ctx =>
       obj2 <- encode obj ctx ;;
       '(_, data) <- build subcon obj2 ctx ;;
       Ok (obj, data);
     sizeof := sizeof subcon;
     flagbuildnone := flagbuildnone subcon |}.

Definition LazyBound (subconfunc : Construct) : Construct :=
  {| parse := parse subconfunc;
     build := build subconfunc;
     sizeof := None;
     flagbuildnone := false |}.

(** [Prefixed(lengthfield, subcon, includelength)]: the body is parsed from
    a stream of its own that holds exactly the announced bytes. *)
Definition Prefixed (lengthfield subcon : Construct) (includelength : bool)
  : Construct :=
  {| parse := fun s ctx =>
       '(lv, s1) <- parse lengthfield s ctx ;;
       length <- of_option (as_int lv) TypeError ;;
       length <- (if includelength
                  then sz <- of_option (sizeof lengthfield) SizeofError ;;
                       Ok (length - sz)
                  else Ok length) ;;
       '(data, s2) <- stream_read s1 length ;;
       '(obj, _) <- parse subcon (BytesIO data) ctx ;;
       Ok (obj, s2);
     build := fun obj ctx =>
       '(buildret, data) <- build subcon obj ctx ;;
       let length := Z.of_nat (List.length data) in
       length <- (if includelength
                  then sz <- of_option (sizeof lengthfield) SizeofError ;;
                       Ok (length + sz)
                  else Ok length) ;;
       '(_, prefix) <- build lengthfield (VInt length) ctx ;;
       Ok (buildret, prefix ++ data);
     sizeof := None;
     flagbuildnone := flagbuildnone subcon |}.

(** [Transformed] with fixed amounts, as [Bitwise] instantiates it. *)
Definition Transformed (subcon : Construct)
    (decodefunc : bytes -> bytes) (decodeamount : Z)
    (encodefunc : bytes -> option bytes) (encodeamount : Z) : Construct :=
  {| parse := fun s ctx =>
       '(data, s') <- stream_read s decodeamount ;;
       '(obj, _) <- parse subcon (BytesIO (decodefunc data)) ctx ;;
       Ok (obj, s');
     build := fun obj ctx =>
       '(buildret, data) <- build subcon obj ctx ;;
       data' <- of_option (encodefunc data) ValueError ;;
       if Z.of_nat (List.length data') =? encodeamount then Ok (buildret, data')
       else Raise StreamError;
     sizeof := Some decodeamount;
     flagbuildnone := flagbuildnone subcon |}.

(** [Bitwise(subcon)]: every use in [pymp4] has a fixed size, for which the
    library takes [Transformed]; the other branch ([Restreamed], for a
    construct without a size) is not needed and raises. *)
Definition Bitwise (subcon : Construct) : Construct :=
  match sizeof subcon with
  | Some size => Transformed subcon bytes2bits (size / 8) bits2bytes (size / 8)
  | None =>
      {| parse := fun _ _ => Raise SizeofError;
         build := fun _ _ => Raise SizeofError;
         sizeof := None;
         flagbuildnone := flagbuildnone subcon |}
  end.

(** [NullTerminated(subcon)]: the bytes up to the first [\x00], which is
    consumed and not part of the data. *)
Fixpoint split_at_null (data : bytes) : option (bytes * bytes) :=
  match data with
  | [] => None
  | c :: data' =>
      if Byte.eqb c x00 then Some ([], data')
      else match split_at_null data' with
           | Some (h, t) => Some (c :: h, t)
           | None => None
           end
  end.

Definition NullTerminated (subcon : Construct) : Construct :=
  {| parse := fun s ctx =>
       match split_at_null (remaining s) with
       | Some (data, rest) =>
           '(obj, _) <- parse subcon (BytesIO data) ctx ;;
           Ok (obj, mkstream (tell s + Z.of_nat (List.length data) + 1) rest)
       | None => Raise StreamError
       end;
     build := fun obj ctx =>
       '(buildret, data) <- build subcon obj ctx ;;
       Ok (buildret, data ++ [x00]);
     sizeof := None;
     flagbuildnone := flagbuildnone subcon |}.

(** [CString("utf8")] is [StringEncoded(NullTerminated(GreedyBytes))]. *)
Definition CString : Construct :=
  Adapter (NullTerminated GreedyBytes)
    (fun obj _ => match obj with
                  | VBytes d => of_option (option_map VStr (utf8_decode d)) StringError
                  | _ => Raise StringError
                  end)
    (fun obj _ => match obj with
                  | VStr s => Ok (VBytes (utf8_encode s))
                  | _ => Raise StringError
                  end).

(** [Enum(subcon, NAME=value, ...)]: a known integer parses to its name. *)
Fixpoint enum_name (mapping : list (string * Z)) (z : Z) : option string :=
  match mapping with
  | [] => None
  | (name, v) :: m => if v =? z then Some name else enum_name m z
  end.

Fixpoint enum_value (mapping : list (string * Z)) (name : string) : option Z :=
  match mapping with
  | [] => None
  | (k, v) :: m => if String.eqb k name then Some v else enum_value m name
  end.

Definition enum_decode (mapping : list (string * Z)) (z : Z) : value :=
  match enum_name mapping z with
  | Some name => VStr name
  | None => VInt z
  end.

Definition Enum (subcon : Construct) (mapping : list (string * Z)) : Construct :=
  Adapter subcon
    (fun obj _ => match obj with
                  | VInt z => Ok (enum_decode mapping z)
                  | _ => Ok obj
                  end)
    (fun obj _ => match obj with
                  | VInt _ | VBool _ => Ok obj
                  | VStr name => of_option (option_map VInt (enum_value mapping name))
                                           MappingError
                  | _ => Raise MappingError
                  end).

(** ** Conditionals *)

Definition IfThenElse (condfunc : expr) (thensubcon elsesubcon : Construct)
  : Construct :=
  {| parse := fun s ctx =>
       c <- condfunc ctx ;;
       parse (if truthy c then thensubcon else elsesubcon) s ctx;
     build := fun obj ctx =>
       c <- condfunc ctx ;;
       build (if truthy c then thensubcon else elsesubcon) obj ctx;
     sizeof := None;
     flagbuildnone := flagbuildnone thensubcon && flagbuildnone elsesubcon |}.

Definition If (condfunc : expr) (subcon : Construct) : Construct :=
  IfThenElse condfunc subcon Pass.

(** An [int] standing where the library expects a construct: calling its
    [_parsereport] or [_build] raises [AttributeError]. *)
Definition int_as_construct : Construct :=
  {| parse := fun _ _ => Raise AttributeError;
     build := fun _ _ => Raise AttributeError;
     sizeof := None;
     flagbuildnone := false |}.

(** [cases.get(key, default)]; a list or a dictionary is no dictionary key. *)
Fixpoint switch_get (key : value) (cases : list (literal * Construct))
    (default : Construct) : Construct :=
  match cases with
  | [] => default
  | (l, sc) :: cases' =>
      if eq_literal key l then sc else switch_get key cases' default
  end.

Definition hashable (v : value) : bool :=
  match v with VList _ | VContainer _ => false | _ => true end.

Definition Switch (keyfunc : expr) (cases : list (literal * Construct))
    (default : Construct) : Construct :=
  {| parse := fun s ctx =>
       key <- keyfunc ctx ;;
       if hashable key then parse (switch_get key cases default) s ctx
       else Raise TypeError;
     build := fun obj ctx =>
       key <- keyfunc ctx ;;
       if hashable key then build (switch_get key cases default) obj ctx
       else Raise TypeError;
     sizeof := None;
     flagbuildnone :=
       forallb (fun c => flagbuildnone (snd c)) cases && flagbuildnone default |}.

(** ** Struct *)

Fixpoint Struct_parse (subcons : list subcon_field) (s : stream)
    (obj : container) (parents : context) : result (value * stream) :=
  match subcons with
  | [] => Ok (VContainer obj, s)
  | (name, sc) :: subcons' =>
      '(subobj, s') <- parse sc s (obj :: parents) ;;
      Struct_parse subcons' s'
        (match name with Some n => setitem n subobj obj | None => obj end)
        parents
  end.

Fixpoint Struct_build (subcons : list subcon_field) (obj frame : container)
    (parents : context) (out : bytes) : result (value * bytes) :=
  match subcons with
  | [] => Ok (VContainer frame, out)
  | (name, sc) :: subcons' =>
      subobj <- match match name with Some n => getitem n obj | None => None end with
                | Some v => Ok v
                | None => if flagbuildnone sc then Ok VNone else Raise KeyError
                end ;;
      let frame1 := match name with Some n => setitem n subobj frame | None => frame end in
      '(buildret, data) <- build sc subobj (frame1 :: parents) ;;
      let frame2 := match name with Some n => setitem n buildret frame1 | None => frame1 end in
      Struct_build subcons' obj frame2 parents (out ++ data)
  end.

Fixpoint sum_sizeof (subcons : list subcon_field) : option Z :=
  match subcons with
  | [] => Some 0
  | (_, sc) :: subcons' =>
      match sizeof sc, sum_sizeof subcons' with
      | Some a, Some b => Some (a + b)
      | _, _ => None
      end
  end.

Definition Struct (subcons : list subcon_field) : Construct :=
  {| parse := fun s ctx => Struct_parse subcons s [] ctx;
     build := fun obj ctx =>
       match obj with
       | VNone => Struct_build subcons [] [] ctx []
       | VContainer c => Struct_build subcons c (update [] c) ctx []
       | _ => Raise TypeError
       end;
     sizeof := sum_sizeof subcons;
     flagbuildnone := forallb (fun f => flagbuildnone (snd f)) subcons |}.

Definition BitStruct (subcons : list subcon_field) : Construct :=
  Bitwise (Struct subcons).

(** ** Sequences *)

Fixpoint Array_parse (subcon : Construct) (count : nat) (s : stream)
    (ctx : context) : result (list value * stream) :=
  match count with
  | O => Ok ([], s)
  | S n =>
      '(e, s') <- parse subcon s ctx ;;
      '(es, s'') <- Array_parse subcon n s' ctx ;;
      Ok (e :: es, s'')
  end.

Fixpoint build_each (subcon : Construct) (items : list value) (ctx : context)
  : result (list value * bytes) :=
  match items with
  | [] => Ok ([], [])
  | e :: items' =>
      '(buildret, data) <- build subcon e ctx ;;
      '(rets, data') <- build_each subcon items' ctx ;;
      Ok (buildret :: rets, data ++ data')
  end.

Definition Array (count : expr) (subcon : Construct) : Construct :=
  {| parse := fun s ctx =>
       c <- count ctx ;;
       n <- of_option (as_int c) TypeError ;;
       if n <? 0 then Raise RangeError else
       '(items, s') <- Array_parse subcon (Z.to_nat n) s ctx ;;
       Ok (VList items, s');
     build := fun obj ctx =>
       c <- count ctx ;;
       n <- of_option (as_int c) TypeError ;;
       if n <? 0 then Raise RangeError else
       match obj with
       | VList items =>
           if Z.of_nat (List.length items) =? n then
             '(rets, data) <- build_each subcon items ctx ;;
             Ok (VList rets, data)
           else Raise RangeError
       | _ => Raise TypeError
       end;
     sizeof :=
       match count [], sizeof subcon with
       | Ok (VInt n), Some sz => Some (n * sz)
       | _, _ => None
       end;
     flagbuildnone := flagbuildnone subcon |}.

(** [GreedyRange(subcon)]: elements are parsed until one fails; the stream
    is put back to where that element started.  Every element that parses
    consumes input in [pymp4], so one round more than there are bytes left is
    enough; a loop that would not end shows as [OutOfFuel]. *)
Fixpoint GreedyRange_parse (subcon : Construct) (rounds : nat) (s : stream)
    (ctx : context) (acc : list value) : result (value * stream) :=
  match rounds with
  | O => OutOfFuel
  | S rounds' =>
      match parse subcon s ctx with
      | Ok (e, s') => GreedyRange_parse subcon rounds' s' ctx (acc ++ [e])
      | Raise _ => Ok (VList acc, s)
      | OutOfFuel => OutOfFuel
      end
  end.

Definition GreedyRange (subcon : Construct) : Construct :=
  {| parse := fun s ctx =>
       GreedyRange_parse subcon (S (List.length (remaining s))) s ctx [];
     build := fun obj ctx =>
       match obj with
       | VList items =>
           '(rets, data) <- build_each subcon items ctx ;;
           Ok (VList rets, data)
       | _ => Raise TypeError
       end;
     sizeof := None;
     flagbuildnone := flagbuildnone subcon |}.

(** [FocusedSeq(parsebuildfrom, subcons...)]: a sequence with a context frame
    of its own, of which one field is the result. *)
Fixpoint FocusedSeq_parse (focus : string) (subcons : list subcon_field)
    (s : stream) (frame : container) (parents : context) (finalret : value)
  : result (value * stream) :=
  match subcons with
  | [] => Ok (finalret, s)
  | (name, sc) :: subcons' =>
      '(parseret, s') <- parse sc s (frame :: parents) ;;
      match name with
      | Some n =>
          FocusedSeq_parse focus subcons' s' (setitem n parseret frame) parents
            (if String.eqb n focus then parseret else finalret)
      | None => FocusedSeq_parse focus subcons' s' frame parents finalret
      end
  end.

Fixpoint FocusedSeq_build (focus : string) (subcons : list subcon_field)
    (obj : value) (frame : container) (parents : context) (finalret : value)
    (out : bytes) : result (value * bytes) :=
  match subcons with
  | [] => Ok (finalret, out)
  | (name, sc) :: subcons' =>
      let is_focus := match name with Some n => String.eqb n focus | None => false end in
      '(buildret, data) <- build sc (if is_focus then obj else VNone) (frame :: parents) ;;
      FocusedSeq_build focus subcons' obj
        (match name with Some n => setitem n buildret frame | None => frame end)
        parents (if is_focus then buildret else finalret) (out ++ data)
  end.

Definition FocusedSeq (parsebuildfrom : string) (subcons : list subcon_field)
  : Construct :=
  {| parse := fun s ctx => FocusedSeq_parse parsebuildfrom subcons s [] ctx VNone;
     build := fun obj ctx =>
       FocusedSeq_build parsebuildfrom subcons obj
         (setitem parsebuildfrom obj []) ctx VNone [];
     sizeof := None;
     flagbuildnone := false |}.

(** [PrefixedArray(countfield, subcon)] is the library's macro
    [FocusedSeq("items", "count" / Rebuild(countfield, len_(this.items)),
    "items" / subcon[this.count])]. *)
Definition PrefixedArray (countfield subcon : Construct) : Construct :=
  FocusedSeq "items"
    [ "count" /: Rebuild countfield (len_ (this ["items"]));
      "items" /: Array (this ["count"]) subcon ].

(** [Select(subcons...)]: the first construct that parses (that builds). *)
Fixpoint Select_parse (subcons : list Construct) (s : stream) (ctx : context)
  : result (value * stream) :=
  match subcons with
  | [] => Raise SelectError
  | sc :: subcons' =>
      match parse sc s ctx with
      | Ok r => Ok r
      | Raise _ => Select_parse subcons' s ctx
      | OutOfFuel => OutOfFuel
      end
  end.

Fixpoint Select_build (subcons : list Construct) (obj : value) (ctx : context)
  : result (value * bytes) :=
  match subcons with
  | [] => Raise SelectError
  | sc :: subcons' =>
      match build sc obj ctx with
      | Ok (_, data) => Ok (obj, data)
      | Raise _ => Select_build subcons' obj ctx
      | OutOfFuel => OutOfFuel
      end
  end.

Definition Select (subcons : list Construct) : Construct :=
  {| parse := Select_parse subcons;
     build := Select_build subcons;
     sizeof := None;
     flagbuildnone := existsb flagbuildnone subcons |}.

(* ================================================================== *)
(** * pymp4.parser *)
(* ================================================================== *)

Definition VERSIONS : list (literal * Construct) :=
  [ (LInt 0, Int32ub); (LInt 1, Int64ub) ].

Definition UNITY_MATRIX : value :=
  VList (map VInt [0x10000; 0; 0; 0; 0x10000; 0; 0; 0; 0x40000000]).

(** ** The adapters and the subconstruct the module defines *)

Definition ints_of (items : list value) : option (list Z) :=
  fold_right (fun v acc => match as_int v, acc with
                           | Some z, Some zs => Some (z :: zs)
                           | _, _ => None
                           end) (Some []) items.

Definition is_byte_value (z : Z) : bool := (0 <=? z) && (z <? 256).

(** [class ISO6392TLanguageCode(Adapter)] *)
Definition ISO6392TLanguageCode_decode (obj : value) (_ : context) : result value :=
  match obj with
  | VList items =>
      cs <- of_option (ints_of items) TypeError ;;
      if forallb is_byte_value cs && forallb (fun c => is_byte_value (c + 0x60)) cs
      then of_option
             (option_map VStr (utf8_decode (map (fun c => int2byte (c + 0x60)) cs)))
             ValueError
      else Raise ValueError
  | _ => Raise TypeError
  end.

Definition ISO6392TLanguageCode_encode (obj : value) (_ : context) : result value :=
  match obj with
  | VStr s => Ok (VList (map (fun c => VInt (byte2int c - 0x60)) (utf8_encode s)))
  | _ => Raise AttributeError
  end.

Definition ISO6392TLanguageCode (subcon : Construct) : Construct :=
  Adapter subcon ISO6392TLanguageCode_decode ISO6392TLanguageCode_encode.

(** [class MaskedInteger(Adapter)] *)
Definition MaskedInteger_code (obj : value) (_ : context) : result value :=
  match as_int obj with
  | Some z => Ok (VInt (Z.land z 0x1F))
  | None => Raise TypeError
  end.

Definition MaskedInteger (subcon : Construct) : Construct :=
  Adapter subcon MaskedInteger_code MaskedInteger_code.

(** [class UUIDBytes(Adapter)] *)
Definition UUIDBytes_decode (obj : value) (_ : context) : result value :=
  match obj with
  | VBytes d => if Nat.eqb (List.length d) 16 then Ok (VUUID d) else Raise ValueError
  | _ => Raise TypeError
  end.

Definition UUIDBytes_encode (obj : value) (_ : context) : result value :=
  match obj with
  | VUUID d => Ok (VBytes d)
  | _ => Raise AttributeError
  end.

Definition UUIDBytes (subcon : Construct) : Construct :=
  Adapter subcon UUIDBytes_decode UUIDBytes_encode.

(** [class TellPlusSizeOf(Subconstruct)] *)
Definition TellPlusSizeOf (subcon : Construct) : Construct :=
  {| parse := fun s _ =>
       sz <- of_option (sizeof subcon) SizeofError ;;
       Ok (VInt (tell s + sz), s);
     build := fun _ _ => Ok (VBytes [], []);
     sizeof := Some 0;
     flagbuildnone := true |}.

(** [UUID("A2394F52-...")]: the 16 bytes of the hexadecimal text. *)
Definition hex_digit (a : ascii) : option Z :=
  let n := Z.of_nat (nat_of_ascii a) in
  if (48 <=? n) && (n <=? 57) then Some (n - 48)
  else if (65 <=? n) && (n <=? 70) then Some (n - 55)
  else if (97 <=? n) && (n <=? 102) then Some (n - 87)
  else None.

Fixpoint hex_digits (s : string) : list Z :=
  match s with
  | EmptyString => []
  | String a s' =>
      match hex_digit a with
      | Some d => d :: hex_digits s'
      | None => hex_digits s'
      end
  end.

Fixpoint pair_up (ds : list Z) : bytes :=
  match ds with
  | hi :: lo :: ds' => int2byte (16 * hi + lo) :: pair_up ds'
  | _ => []
  end.

Definition UUID (s : string) : bytes := pair_up (hex_digits s).

(** ** Header boxes *)

Definition FileTypeBox : Construct := Struct
  [ "type" /: ConstBytes (b_ "ftyp");
    "major_brand" /: Bytes 4;
    "minor_version" /: Int32ub;
    "compatible_brands" /: GreedyRange (Bytes 4) ].

Definition SegmentTypeBox : Construct := Struct
  [ "type" /: ConstBytes (b_ "styp");
    "major_brand" /: Bytes 4;
    "minor_version" /: Int32ub;
    "compatible_brands" /: GreedyRange (Bytes 4) ].

(** ** Catch-all boxes *)

Definition RawBox : Construct := Struct
  [ "type" /: Bytes 4; "data" /: Default GreedyBytes (VBytes []) ].

Definition FreeBox : Construct := Struct
  [ "type" /: ConstBytes (b_ "free"); "data" /: GreedyBytes ].

Definition SkipBox : Construct := Struct
  [ "type" /: ConstBytes (b_ "skip"); "data" /: GreedyBytes ].

(** ** Movie boxes

    [Switch(this.version, VERSIONS, 0)]: the library stores
    [default or Pass], so the default [0] is [Pass], as when none is given. *)

Definition MovieHeaderBox : Construct := Struct
  [ "type" /: ConstBytes (b_ "mvhd");
    "version" /: Default Int8ub (VInt 0);
    "flags" /: Default Int24ub (VInt 0);
    "creation_time" /: Switch (this ["version"]) VERSIONS Pass;
    "modification_time" /: Switch (this ["version"]) VERSIONS Pass;
    "timescale" /: Default Int32ub (VInt 10000000);
    "duration" /: Switch (this ["version"]) VERSIONS Pass;
    "rate" /: Default Int32sb (VInt 65536);
    "volume" /: Default Int16sb (VInt 256);
    anon (Const (LInt 0) Int16ub);
    anon (Const (LInt 0) Int32ub);
    anon (Const (LInt 0) Int32ub);
    "matrix" /: Default (Array (lit_int 9) Int32sb) UNITY_MATRIX;
    "pre_defined" /: Default (Array (lit_int 6) Int32ub) (VList (repeat (VInt 0) 6));
    "next_track_ID" /: Default Int32ub (VInt 0xFFFFFFFF) ].

Definition TrackHeaderBox : Construct := Struct
  [ "type" /: ConstBytes (b_ "tkhd");
    "version" /: Default Int8ub (VInt 0);
    "flags" /: Default Int24ub (VInt 1);
    "creation_time" /: Switch (this ["version"]) VERSIONS Pass;
    "modification_time" /: Switch (this ["version"]) VERSIONS Pass;
    "track_ID" /: Default Int32ub (VInt 1);
    anon (Padding 4);
    "duration" /: Switch (this ["version"]) VERSIONS Pass;
    anon (Padding 8);
    "layer" /: Default Int16sb (VInt 0);
    "alternate_group" /: Default Int16sb (VInt 0);
    "volume" /: Default Int16sb (VInt 0);
    anon (Padding 2);
    "matrix" /: Default (Array (lit_int 9) Int32sb) UNITY_MATRIX;
    "width" /: Default Int32ub (VInt 0);
    "height" /: Default Int32ub (VInt 0) ].

(** ** HDS boxes; [Box] is what [LazyBound(lambda: Box)] resolves to *)

Definition HDSSegmentBox (Box : Construct) : Construct := Struct
  [ "type" /: ConstBytes (b_ "abst");
    "version" /: Default Int8ub (VInt 0);
    "flags" /: Default Int24ub (VInt 0);
    "info_version" /: Int32ub;
    "attrs" /: BitStruct [ anon (Padding 1); "profile" /: Flag; "live" /: Flag;
                           "update" /: Flag; anon (Padding 4) ];
    "time_scale" /: Int32ub;
    "current_media_time" /: Int64ub;
    "smpte_time_code_offset" /: Int64ub;
    "movie_identifier" /: NullTerminated GreedyBytes;
    "server_entry_table" /: PrefixedArray Int8ub (NullTerminated GreedyBytes);
    "quality_entry_table" /: PrefixedArray Int8ub (NullTerminated GreedyBytes);
    "drm_data" /: NullTerminated GreedyBytes;
    "metadata" /: NullTerminated GreedyBytes;
    "segment_run_table" /: PrefixedArray Int8ub (LazyBound Box);
    "fragment_run_table" /: PrefixedArray Int8ub (LazyBound Box) ].

Definition HDSSegmentRunBox : Construct := Struct
  [ "type" /: ConstBytes (b_ "asrt");
    "version" /: Default Int8ub (VInt 0);
    "flags" /: Default Int24ub (VInt 0);
    "quality_entry_table" /: PrefixedArray Int8ub (NullTerminated GreedyBytes);
    "segment_run_enteries" /:
      PrefixedArray Int32ub
        (Struct [ "first_segment" /: Int32ub; "fragments_per_segment" /: Int32ub ]) ].

Definition HDSFragmentRunBox : Construct := Struct
  [ "type" /: ConstBytes (b_ "afrt");
    "version" /: Default Int8ub (VInt 0);
    "flags" /: BitStruct [ anon (Padding 23); "update" /: Flag ];
    "time_scale" /: Int32ub;
    "quality_entry_table" /: PrefixedArray Int8ub (NullTerminated GreedyBytes);
    "fragment_run_enteries" /:
      PrefixedArray Int32ub
        (Struct [ "first_fragment" /: Int32ub;
                  "first_fragment_timestamp" /: Int64ub;
                  "fragment_duration" /: Int32ub;
                  "discontinuity" /: If (eq_int (this ["fragment_duration"]) 0) Int8ub ]) ].

(** ** Boxes contained by the media box *)

(** The [BitStruct] of the [language] field of [MediaHeaderBox]. *)
Definition MediaHeaderBox_language : Construct := BitStruct
  [ anon (Padding 1);
    "language" /: ISO6392TLanguageCode (Array (lit_int 3) (BitsInteger 5)) ].

Definition MediaHeaderBox : Construct := Struct
  [ "type" /: ConstBytes (b_ "mdhd");
    "version" /: Default Int8ub (VInt 0);
    "flags" /: Const (LInt 0) Int24ub;
    "creation_time" /: Switch (this ["version"]) VERSIONS Pass;
    "modification_time" /: Switch (this ["version"]) VERSIONS Pass;
    "timescale" /: Int32ub;
    "duration" /: Switch (this ["version"]) VERSIONS Pass;
    "language" /: MediaHeaderBox_language;
    anon (Padding 2) ].

Definition HandlerReferenceBox : Construct := Struct
  [ "type" /: ConstBytes (b_ "hdlr");
    "version" /: Const (LInt 0) Int8ub;
    "flags" /: Const (LInt 0) Int24ub;
    anon (Padding 4);
    "handler_type" /: Bytes 4;
    anon (Padding 12);
    "name" /: CString ].

(** ** Boxes contained by the media info box *)

Definition VideoMediaHeaderBox : Construct := Struct
  [ "type" /: ConstBytes (b_ "vmhd");
    "version" /: Int8ub;
    "flags" /: Default Int24ub (VInt 1);
    "graphics_mode" /: Default Int16ub (VInt 0);
    "opcolor" /: Struct [ "red" /: Default Int16ub (VInt 0);
                          "green" /: Default Int16ub (VInt 0);
                          "blue" /: Default Int16ub (VInt 0) ] ].

Definition DataEntryUrlBox : Construct := Prefixed Int32ub
  (Struct
     [ "type" /: ConstBytes (b_ "url ");
       "version" /: Const (LInt 0) Int8ub;
       "flags" /: BitStruct [ anon (Padding 23);
                              "self_contained" /: Rebuild Flag (not_ (this_ ["location"])) ];
       "location" /: If (not_ (this ["flags"; "self_contained"])) CString ])
  true.

Definition DataEntryUrnBox : Construct := Prefixed Int32ub
  (Struct
     [ "type" /: ConstBytes (b_ "urn ");
       "version" /: Const (LInt 0) Int8ub;
       "flags" /: BitStruct [ anon (Padding 23);
                              "self_contained" /:
                                Rebuild Flag (not_ (and_ (this_ ["name"]) (this_ ["location"]))) ];
       "name" /: If (eq_int (this ["flags"]) 0) CString;
       "location" /: If (eq_int (this ["flags"]) 0) CString ])
  true.

Definition DataReferenceBox : Construct := Struct
  [ "type" /: ConstBytes (b_ "dref");
    "version" /: Const (LInt 0) Int8ub;
    "flags" /: Default Int24ub (VInt 0);
    "data_entries" /: PrefixedArray Int32ub (Select [DataEntryUrnBox; DataEntryUrlBox]) ].

(** ** Sample table boxes *)

Definition MP4ASampleEntryBox : Construct := Struct
  [ "version" /: Default Int16ub (VInt 0);
    "revision" /: Const (LInt 0) Int16ub;
    "vendor" /: Const (LInt 0) Int32ub;
    "channels" /: Default Int16ub (VInt 2);
    "bits_per_sample" /: Default Int16ub (VInt 16);
    "compression_id" /: Default Int16sb (VInt 0);
    "packet_size" /: Default Int16ub (VInt 0);
    "sampling_rate" /: Int16ub;
    anon (Padding 2) ].

Definition AC3SpecificBox : Construct := Struct
  [ "type" /: ConstBytes (b_ "dac3");
    "flags" /: BitStruct [ "fscod" /: BitsInteger 2;
                           "bsid" /: BitsInteger 5;
                           "bsmod" /: BitsInteger 3;
                           "acmod" /: BitsInteger 3;
                           "lfeon" /: BitsInteger 1;
                           "bit_rate_code" /: BitsInteger 5;
                           "reserved" /: BitsInteger 5 ] ].

Definition AVCC : Construct := Struct
  [ "version" /: Const (LInt 1) Int8ub;
    "profile" /: Int8ub;
    "compatibility" /: Int8ub;
    "level" /: Int8ub;
    "nal" /: BitStruct [ anon (Padded 6 Pass x01);
                         "nal_unit_length_field" /: Default (BitsInteger 2) (VInt 3) ];
    "sps" /: Default (PrefixedArray (MaskedInteger Int8ub) (Prefixed Int16ub GreedyBytes false))
                     (VList []);
    "pps" /: Default (PrefixedArray Int8ub (Prefixed Int16ub GreedyBytes false)) (VList []) ].

Definition HVCC : Construct := Struct
  [ "attrs" /: Struct
      [ "version" /: Const (LInt 1) Int8ub;
        "flags" /: BitStruct [ "profile_space" /: BitsInteger 2;
                               "general_tier_flag" /: BitsInteger 1;
                               "general_profile" /: BitsInteger 5 ];
        "general_profile_compatibility_flags" /: Int32ub;
        "general_constraint_indicator_flags" /: Bytes 6;
        "general_level" /: Int8ub;
        "min_spatial_segmentation" /:
          BitStruct [ "reserved" /: Bytes 4;
                      "min_spatial_segmentation" /: BitsInteger 12 ];
        "parallelism_type" /:
          BitStruct [ "reserved" /: Bytes 6; "parallelism_type" /: BitsInteger 2 ];
        "chroma_format_idc" /:
          BitStruct [ "reserved" /: Bytes 6; "chroma_format_idc" /: BitsInteger 2 ];
        "bit_depth_luma_minus8" /:
          BitStruct [ "reserved" /: Bytes 5; "bit_depth_luma_minus8" /: BitsInteger 3 ];
        "bit_depth_chroma_minus8" /:
          BitStruct [ "reserved" /: Bytes 5; "bit_depth_chroma_minus8" /: BitsInteger 3 ];
        "average_frame_rate" /: Int16ub;
        "nalu_flags" /: BitStruct [ "constant_frame_rate" /: BitsInteger 2;
                                    "num_temporal_layers" /: BitsInteger 3;
                                    "temporal_id_nested" /: BitsInteger 1;
                                    "nalu_length_size_minus1" /: BitsInteger 2 ];
        "num_of_arr_nalus" /: Int8ub;
        "arr_nalus" /:
          Array (this ["num_of_arr_nalus"])
            (Struct
               [ "nalu_flags" /: BitStruct [ "array_completeness" /: BitsInteger 1;
                                             "reserved" /: BitsInteger 1;
                                             "nal_unit_type" /: BitsInteger 6 ];
                 "num_nalus" /: Int16ub;
                 "nalus" /:
                   Array (this ["num_nalus"])
                     (Struct [ "nal_unit_length" /: Int16ub;
                               "nal_unit" /: Bytes_ (this ["nal_unit_length"]) ]) ]) ] ].

Definition PixelAspectRatioBox : Construct := Struct
  [ "hSpacing" /: Int32ub; "vSpacing" /: Int32ub ].

Definition AVC1SampleEntryBox : Construct := Struct
  [ "version" /: Default Int16ub (VInt 0);
    "revision" /: Const (LInt 0) Int16ub;
    "vendor" /: Default (Bytes 4) (VBytes (b_ "brdy"));
    "temporal_quality" /: Default Int32ub (VInt 0);
    "spatial_quality" /: Default Int32ub (VInt 0);
    "width" /: Int16ub;
    "height" /: Int16ub;
    "horizontal_resolution" /: Default Int16ub (VInt 72);
    anon (Padding 2);
    "vertical_resolution" /: Default Int16ub (VInt 72);
    anon (Padding 2);
    "data_size" /: Const (LInt 0) Int32ub;
    "frame_count" /: Default Int16ub (VInt 1);
    "compressor_name" /: Default (Bytes 32) (VBytes []);
    "depth" /: Default Int16ub (VInt 24);
    "color_table_id" /: Default Int16sb (VInt (-1));
    "avc_data" /:
      Prefixed Int32ub
        (Struct [ "type" /: Bytes 4;
                  "box_body" /: Switch (this ["type"])
                                  [ (LBytes (b_ "avcC"), AVCC);
                                    (LBytes (b_ "hvcC"), HVCC);
                                    (LBytes (b_ "pasp"), PixelAspectRatioBox) ]
                                  Pass ])
        true ].

Definition SampleEntryBox (Box : Construct) : Construct := Prefixed Int32ub
  (Struct
     [ "type" /: Bytes 4;
       anon (Padding 6);
       "data_reference_index" /: Default Int16ub (VInt 1);
       "sample_entry_box" /:
         Switch (this ["type"])
           [ (LBytes (b_ "ec-3"), MP4ASampleEntryBox);
             (LBytes (b_ "mp4a"), MP4ASampleEntryBox);
             (LBytes (b_ "enca"), MP4ASampleEntryBox);
             (LBytes (b_ "hvc1"), AVC1SampleEntryBox);
             (LBytes (b_ "avc1"), AVC1SampleEntryBox);
             (LBytes (b_ "encv"), AVC1SampleEntryBox) ]
           (Struct [ "data" /: GreedyBytes ]);
       "children" /: LazyBound (GreedyRange Box) ])
  true.

Definition BitRateBox : Construct := Struct
  [ "type" /: ConstBytes (b_ "btrt");
    "bufferSizeDB" /: Int32ub;
    "maxBitrate" /: Int32ub;
    "avgBirate" /: Int32ub ].

Definition SampleDescriptionBox (Box : Construct) : Construct := Struct
  [ "type" /: ConstBytes (b_ "stsd");
    "version" /: Default Int8ub (VInt 0);
    "flags" /: Const (LInt 0) Int24ub;
    "children" /: PrefixedArray Int32ub (SampleEntryBox Box) ].

Definition SampleSizeBox : Construct := Struct
  [ "type" /: ConstBytes (b_ "stsz");
    "version" /: Int8ub;
    "flags" /: Const (LInt 0) Int24ub;
    "sample_size" /: Int32ub;
    "sample_count" /: Int32ub;
    "entry_sizes" /: If (eq_int (this ["sample_size"]) 0)
                        (Array (this ["sample_count"]) Int32ub) ].

Definition SampleSizeBox2 : Construct := Struct
  [ "type" /: ConstBytes (b_ "stz2");
    "version" /: Int8ub;
    "flags" /: Const (LInt 0) Int24ub;
    anon (Padding 3);
    "field_size" /: Int8ub;
    "sample_count" /: Int24ub ].

Definition SampleDegradationPriorityBox : Construct := Struct
  [ "type" /: ConstBytes (b_ "stdp");
    "version" /: Const (LInt 0) Int8ub;
    "flags" /: Const (LInt 0) Int24ub ].

Definition TimeToSampleBox : Construct := Struct
  [ "type" /: ConstBytes (b_ "stts");
    "version" /: Const (LInt 0) Int8ub;
    "flags" /: Const (LInt 0) Int24ub;
    "entries" /:
      Default (PrefixedArray Int32ub
                 (Struct [ "sample_count" /: Int32ub; "sample_delta" /: Int32ub ]))
              (VList []) ].

Definition SyncSampleBox : Construct := Struct
  [ "type" /: ConstBytes (b_ "stss");
    "version" /: Const (LInt 0) Int8ub;
    "flags" /: Const (LInt 0) Int24ub;
    "entries" /:
      Default (PrefixedArray Int32ub (Struct [ "sample_number" /: Int32ub ])) (VList []) ].

Definition SampleToChunkBox : Construct := Struct
  [ "type" /: ConstBytes (b_ "stsc");
    "version" /: Const (LInt 0) Int8ub;
    "flags" /: Const (LInt 0) Int24ub;
    "entries" /:
      Default (PrefixedArray Int32ub
                 (Struct [ "first_chunk" /: Int32ub;
                           "samples_per_chunk" /: Int32ub;
                           "sample_description_index" /: Int32ub ]))
              (VList []) ].

Definition ChunkOffsetBox : Construct := Struct
  [ "type" /: ConstBytes (b_ "stco");
    "version" /: Const (LInt 0) Int8ub;
    "flags" /: Const (LInt 0) Int24ub;
    "entries" /:
      Default (PrefixedArray Int32ub (Struct [ "chunk_offset" /: Int32ub ])) (VList []) ].

Definition ChunkLargeOffsetBox : Construct := Struct
  [ "type" /: ConstBytes (b_ "co64");
    "version" /: Const (LInt 0) Int8ub;
    "flags" /: Const (LInt 0) Int24ub;
    "entries" /: PrefixedArray Int32ub (Struct [ "chunk_offset" /: Int64ub ]) ].

(** ** Movie fragment boxes *)

Definition MovieFragmentHeaderBox : Construct := Struct
  [ "type" /: ConstBytes (b_ "mfhd");
    "version" /: Const (LInt 0) Int8ub;
    "flags" /: Const (LInt 0) Int24ub;
    "sequence_number" /: Int32ub ].

Definition TrackFragmentBaseMediaDecodeTimeBox : Construct := Struct
  [ "type" /: ConstBytes (b_ "tfdt");
    "version" /: Int8ub;
    "flags" /: Const (LInt 0) Int24ub;
    "baseMediaDecodeTime" /: Switch (this ["version"]) VERSIONS Pass ].

Definition TrackSampleFlags : Construct := BitStruct
  [ anon (Padding 4);
    "is_leading" /:
      Default (Enum (BitsInteger 2)
                 [("UNKNOWN", 0); ("LEADINGDEP", 1); ("NOTLEADING", 2); ("LEADINGNODEP", 3)])
              (VInt 0);
    "sample_depends_on" /:
      Default (Enum (BitsInteger 2)
                 [("UNKNOWN", 0); ("DEPENDS", 1); ("NOTDEPENDS", 2); ("RESERVED", 3)])
              (VInt 0);
    "sample_is_depended_on" /:
      Default (Enum (BitsInteger 2)
                 [("UNKNOWN", 0); ("NOTDISPOSABLE", 1); ("DISPOSABLE", 2); ("RESERVED", 3)])
              (VInt 0);
    "sample_has_redundancy" /:
      Default (Enum (BitsInteger 2)
                 [("UNKNOWN", 0); ("REDUNDANT", 1); ("NOTREDUNDANT", 2); ("RESERVED", 3)])
              (VInt 0);
    "sample_padding_value" /: Default (BitsInteger 3) (VInt 0);
    "sample_is_non_sync_sample" /: Default Flag (VBool false);
    "sample_degradation_priority" /: Default (BitsInteger 16) (VInt 0) ].

(** The fields of the [flags] of [TrackRunBox] and the [Struct] of one entry
    of its [sample_info]. *)
Definition TrackRunBox_flags : list subcon_field :=
  [ anon (Padding 12);
    "sample_composition_time_offsets_present" /: Flag;
    "sample_flags_present" /: Flag;
    "sample_size_present" /: Flag;
    "sample_duration_present" /: Flag;
    anon (Padding 5);
    "first_sample_flags_present" /: Flag;
    anon (Padding 1);
    "data_offset_present" /: Flag ].

Definition TrackRunBox_sample_info : Construct := Struct
  [ "sample_duration" /: If (this_ ["flags"; "sample_duration_present"]) Int32ub;
    "sample_size" /: If (this_ ["flags"; "sample_size_present"]) Int32ub;
    "sample_flags" /: If (this_ ["flags"; "sample_flags_present"]) TrackSampleFlags;
    "sample_composition_time_offsets" /:
      If (this_ ["flags"; "sample_composition_time_offsets_present"])
         (Switch (this_ ["version"]) [ (LInt 0, Int32ub); (LInt 1, Int32sb) ] Pass) ].

Definition TrackRunBox : Construct := Struct
  [ "type" /: ConstBytes (b_ "trun");
    "version" /: Int8ub;
    "flags" /: BitStruct TrackRunBox_flags;
    "sample_count" /: Int32ub;
    "data_offset" /: If (this ["flags"; "data_offset_present"]) Int32sb;
    "first_sample_flags" /: If (this ["flags"; "first_sample_flags_present"]) Int32ub;
    "sample_info" /: Array (this ["sample_count"]) TrackRunBox_sample_info ].

(** The fields of the [flags] of [TrackFragmentHeaderBox]. *)
Definition TrackFragmentHeaderBox_flags : list subcon_field :=
  [ anon (Padding 6);
    "default_base_is_moof" /: Flag;
    "duration_is_empty" /: Flag;
    anon (Padding 10);
    "default_sample_flags_present" /: Flag;
    "default_sample_size_present" /: Flag;
    "default_sample_duration_present" /: Flag;
    anon (Padding 1);
    "sample_description_index_present" /: Flag;
    "base_data_offset_present" /: Flag ].

Definition TrackFragmentHeaderBox : Construct := Struct
  [ "type" /: ConstBytes (b_ "tfhd");
    "version" /: Int8ub;
    "flags" /: BitStruct TrackFragmentHeaderBox_flags;
    "track_ID" /: Int32ub;
    "base_data_offset" /: If (this ["flags"; "base_data_offset_present"]) Int64ub;
    "sample_description_index" /:
      If (this ["flags"; "sample_description_index_present"]) Int32ub;
    "default_sample_duration" /:
      If (this ["flags"; "default_sample_duration_present"]) Int32ub;
    "default_sample_size" /: If (this ["flags"; "default_sample_size_present"]) Int32ub;
    "default_sample_flags" /:
      If (this ["flags"; "default_sample_flags_present"]) TrackSampleFlags ].

Definition MovieExtendsHeaderBox : Construct := Struct
  [ "type" /: ConstBytes (b_ "mehd");
    "version" /: Default Int8ub (VInt 0);
    "flags" /: Const (LInt 0) Int24ub;
    "fragment_duration" /: Switch (this ["version"]) VERSIONS Pass ].

Definition TrackExtendsBox : Construct := Struct
  [ "type" /: ConstBytes (b_ "trex");
    "version" /: Const (LInt 0) Int8ub;
    "flags" /: Const (LInt 0) Int24ub;
    "track_ID" /: Int32ub;
    "default_sample_description_index" /: Default Int32ub (VInt 1);
    "default_sample_duration" /: Default Int32ub (VInt 0);
    "default_sample_size" /: Default Int32ub (VInt 0);
    "default_sample_flags" /: Default TrackSampleFlags (VContainer []) ].

Definition SegmentIndexBox : Construct := Struct
  [ "type" /: ConstBytes (b_ "sidx");
    "version" /: Int8ub;
    "flags" /: Const (LInt 0) Int24ub;
    "reference_ID" /: Int32ub;
    "timescale" /: Int32ub;
    "earliest_presentation_time" /: Switch (this ["version"]) VERSIONS Pass;
    "first_offset" /: Switch (this ["version"]) VERSIONS Pass;
    anon (Padding 2);
    "reference_count" /: Int16ub;
    "references" /:
      Array (this ["reference_count"])
        (BitStruct
           [ "reference_type" /: Enum (BitsInteger 1) [("INDEX", 1); ("MEDIA", 0)];
             "referenced_size" /: BitsInteger 31;
             "segment_duration" /: BitsInteger 32;
             "starts_with_SAP" /: Flag;
             "SAP_type" /: BitsInteger 3;
             "SAP_delta_time" /: BitsInteger 28 ]) ].

Definition SampleAuxiliaryInformationSizesBox : Construct := Struct
  [ "type" /: ConstBytes (b_ "saiz");
    "version" /: Const (LInt 0) Int8ub;
    "flags" /: BitStruct [ anon (Padding 23); "has_aux_info_type" /: Flag ];
    "aux_info_type" /: If (this ["flags"; "has_aux_info_type"]) (Bytes 4);
    "aux_info_type_parameter" /: If (this ["flags"; "has_aux_info_type"]) Int32ub;
    "default_sample_info_size" /: Int8ub;
    "sample_count" /: Int32ub;
    "sample_info_sizes" /:
      If (eq_int (this ["default_sample_info_size"]) 0)
         (Array (this ["sample_count"]) Int8ub) ].

Definition SampleAuxiliaryInformationOffsetsBox : Construct := Struct
  [ "type" /: ConstBytes (b_ "saio");
    "version" /: Int8ub;
    "flags" /: BitStruct [ anon (Padding 23); "has_aux_info_type" /: Flag ];
    "aux_info_type" /: If (this ["flags"; "has_aux_info_type"]) (Bytes 4);
    "aux_info_type_parameter" /: If (this ["flags"; "has_aux_info_type"]) Int32ub;
    "offsets" /: PrefixedArray Int32ub (Switch (this_ ["version"]) VERSIONS Pass) ].

(** ** Movie data box.  The source names the first field [b"type"], a bytes
    key, which is kept apart from the text key ["type"]. *)

Definition MovieDataBox : Construct := Struct
  [ "b'type'" /: ConstBytes (b_ "mdat"); "data" /: GreedyBytes ].

(** ** Media info box *)

Definition SoundMediaHeaderBox : Construct := Struct
  [ "type" /: ConstBytes (b_ "smhd");
    "version" /: Const (LInt 0) Int8ub;
    "flags" /: Const (LInt 0) Int24ub;
    "balance" /: Default Int16sb (VInt 0);
    "reserved" /: Const (LInt 0) Int16ub ].

(** ** DASH boxes *)

(** [lambda ctx: 1 if (hasattr(ctx, "key_IDs") and ctx.key_IDs) else 0] *)
Definition pssh_version : expr :=
  fun ctx => match ctx with
             | c :: _ =>
                 match getitem "key_IDs" c with
                 | Some v => Ok (VInt (if truthy v then 1 else 0))
                 | None => Ok (VInt 0)
                 end
             | [] => Ok (VInt 0)
             end.

Definition ProtectionSystemHeaderBox : Construct := Struct
  [ "type" /: If (ne_bytes (this_ ["type"]) (b_ "uuid")) (ConstBytes (b_ "pssh"));
    "version" /: Rebuild Int8ub pssh_version;
    "flags" /: Const (LInt 0) Int24ub;
    "system_ID" /: UUIDBytes (Bytes 16);
    "key_IDs" /: If (eq_int (this ["version"]) 1)
                    (PrefixedArray Int32ub (UUIDBytes (Bytes 16)));
    "init_data" /: Prefixed Int32ub GreedyBytes false ].

Definition TrackEncryptionBox : Construct := Struct
  [ "type" /: If (ne_bytes (this_ ["type"]) (b_ "uuid")) (ConstBytes (b_ "tenc"));
    "version" /: Const (LInt 0) Int8ub;
    "flags" /: Const (LInt 0) Int24ub;
    "is_encrypted" /: Int24ub;
    "iv_size" /: Int8ub;
    "key_ID" /: UUIDBytes (Bytes 16) ].

Definition SampleEncryptionBox : Construct := Struct
  [ "type" /: If (ne_bytes (this_ ["type"]) (b_ "uuid")) (ConstBytes (b_ "senc"));
    "version" /: Const (LInt 0) Int8ub;
    "flags" /: BitStruct [ anon (Padding 22);
                           "has_subsample_encryption_info" /: Flag;
                           anon (Padding 1) ];
    "sample_encryption_info" /:
      PrefixedArray Int32ub
        (Struct
           [ "iv" /: Bytes 8;
             "subsample_encryption_info" /:
               If (this__ ["flags"; "has_subsample_encryption_info"])
                  (PrefixedArray Int16ub
                     (Struct [ "clear_bytes" /: Int16ub; "cipher_bytes" /: Int32ub ])) ]) ].

Definition SampleToGroupBox : Construct := Struct
  [ "type" /: ConstBytes (b_ "sbgp");
    "version" /: Int8ub;
    "flags" /: Const (LInt 0) Int24ub;
    "grouping_type" /: Bytes 4;
    "grouping_type_parameter" /: If (eq_int (this ["version"]) 1) Int32ub;
    "entry_count" /: Int32ub;
    "entries" /:
      Array (this ["entry_count"])
        (Struct [ "sample_count" /: Int32ub; "group_description_index" /: Int32ub ]) ].

Definition SampleGroupDescriptionBox : Construct := Struct
  [ "type" /: ConstBytes (b_ "sgpd");
    "version" /: Int8ub;
    "flags" /: Int24ub;
    "grouping_type" /: Bytes 4;
    "default_length" /: IfThenElse (eq_int (this ["version"]) 1) Int32ub int_as_construct;
    "default_group_description_index" /: If (ge_int (this ["version"]) 2) Int32ub;
    "entry_count" /: Int32ub;
    "entries" /:
      Array (this ["entry_count"])
        (Struct [ "is_encrypted" /: Int24ub;
                  "iv_size" /: Int8ub;
                  "key_ID" /: UUIDBytes (Bytes 16) ]) ].

Definition OriginalFormatBox : Construct := Struct
  [ "type" /: ConstBytes (b_ "frma");
    "original_format" /: Default (Bytes 4) (VBytes (b_ "avc1")) ].

Definition SchemeTypeBox : Construct := Struct
  [ "type" /: ConstBytes (b_ "schm");
    "schema_uri" /: Default (Bytes 4) (VBytes []);
    "scheme_type" /: Default (Bytes 4) (VBytes (b_ "cenc"));
    "scheme_version" /: Int32ub ].

(** ** PIFF boxes *)

Definition UUIDBox : Construct := Struct
  [ "type" /: ConstBytes (b_ "uuid");
    "extended_type" /: UUIDBytes (Bytes 16);
    "data" /:
      Switch (this ["extended_type"])
        [ (LUUID (UUID "A2394F52-5A9B-4F14-A244-6C427C648DF4"), SampleEncryptionBox);
          (LUUID (UUID "D08A4F18-10F3-4A82-B6C8-32D8ABA183D3"), ProtectionSystemHeaderBox);
          (LUUID (UUID "8974DBCE-7BE7-4C51-84F9-7148F9882554"), TrackEncryptionBox) ]
        GreedyBytes ].

(** ** The top-level codec

    [Box] and [ContainerBox] refer to each other through [LazyBound].  The
    recursion is made structural by a budget: [Box (S n)] is the codec whose
    lazy references resolve to [Box n], and [Box 0] answers [OutOfFuel]. *)

Definition ContainerBox (Box : Construct) : Construct := Struct
  [ "type" /: Bytes 4; "children" /: GreedyRange Box ].

Definition ContainerBoxLazy (Box : Construct) : Construct :=
  LazyBound (ContainerBox Box).

Definition out_of_fuel : Construct :=
  {| parse := fun _ _ => OutOfFuel;
     build := fun _ _ => OutOfFuel;
     sizeof := None;
     flagbuildnone := false |}.

(** The dispatch table of [Box], in the order of the source. *)
Definition Box_cases (Box : Construct) : list (literal * Construct) :=
  [ (LBytes (b_ "ftyp"), FileTypeBox);
    (LBytes (b_ "styp"), SegmentTypeBox);
    (LBytes (b_ "mvhd"), MovieHeaderBox);
    (LBytes (b_ "moov"), ContainerBoxLazy Box);
    (LBytes (b_ "moof"), ContainerBoxLazy Box);
    (LBytes (b_ "mfhd"), MovieFragmentHeaderBox);
    (LBytes (b_ "tfdt"), TrackFragmentBaseMediaDecodeTimeBox);
    (LBytes (b_ "trun"), TrackRunBox);
    (LBytes (b_ "tfhd"), TrackFragmentHeaderBox);
    (LBytes (b_ "traf"), ContainerBoxLazy Box);
    (LBytes (b_ "mvex"), ContainerBoxLazy Box);
    (LBytes (b_ "mehd"), MovieExtendsHeaderBox);
    (LBytes (b_ "trex"), TrackExtendsBox);
    (LBytes (b_ "trak"), ContainerBoxLazy Box);
    (LBytes (b_ "mdia"), ContainerBoxLazy Box);
    (LBytes (b_ "tkhd"), TrackHeaderBox);
    (LBytes (b_ "mdat"), MovieDataBox);
    (LBytes (b_ "free"), FreeBox);
    (LBytes (b_ "skip"), SkipBox);
    (LBytes (b_ "mdhd"), MediaHeaderBox);
    (LBytes (b_ "hdlr"), HandlerReferenceBox);
    (LBytes (b_ "minf"), ContainerBoxLazy Box);
    (LBytes (b_ "vmhd"), VideoMediaHeaderBox);
    (LBytes (b_ "dinf"), ContainerBoxLazy Box);
    (LBytes (b_ "dref"), DataReferenceBox);
    (LBytes (b_ "stbl"), ContainerBoxLazy Box);
    (LBytes (b_ "stsd"), SampleDescriptionBox Box);
    (LBytes (b_ "stsz"), SampleSizeBox);
    (LBytes (b_ "stts"), TimeToSampleBox);
    (LBytes (b_ "stss"), SyncSampleBox);
    (LBytes (b_ "stsc"), SampleToChunkBox);
    (LBytes (b_ "stco"), ChunkOffsetBox);
    (LBytes (b_ "co64"), ChunkLargeOffsetBox);
    (LBytes (b_ "smhd"), SoundMediaHeaderBox);
    (LBytes (b_ "sidx"), SegmentIndexBox);
    (LBytes (b_ "saiz"), SampleAuxiliaryInformationSizesBox);
    (LBytes (b_ "saio"), SampleAuxiliaryInformationOffsetsBox);
    (LBytes (b_ "btrt"), BitRateBox);
    (LBytes (b_ "dac3"), AC3SpecificBox);
    (LBytes (b_ "tenc"), TrackEncryptionBox);
    (LBytes (b_ "pssh"), ProtectionSystemHeaderBox);
    (LBytes (b_ "senc"), SampleEncryptionBox);
    (LBytes (b_ "sinf"), ContainerBoxLazy Box);
    (LBytes (b_ "frma"), OriginalFormatBox);
    (LBytes (b_ "schm"), SchemeTypeBox);
    (LBytes (b_ "schi"), ContainerBoxLazy Box);
    (LBytes (b_ "sbgp"), SampleToGroupBox);
    (LBytes (b_ "sgpd"), SampleGroupDescriptionBox);
    (LBytes (b_ "uuid"), UUIDBox);
    (LBytes (b_ "abst"), HDSSegmentBox Box);
    (LBytes (b_ "asrt"), HDSSegmentRunBox);
    (LBytes (b_ "afrt"), HDSFragmentRunBox) ].

(** The [Struct] inside [Box]. *)
Definition Box_struct (Box : Construct) : Construct := Struct
  [ "type" /: Peek (Bytes 4);
    "box_body" /: Switch (this ["type"]) (Box_cases Box) RawBox;
    "length" /: TellPlusSizeOf Int32ub ].

Fixpoint Box (fuel : nat) : Construct :=
  match fuel with
  | O => out_of_fuel
  | S fuel' => Prefixed Int32ub (Box_struct (Box fuel')) true
  end.

Definition MP4 (fuel : nat) : Construct := GreedyRange (Box fuel).

(** [Box.parse_stream(stream)] and [Box.parse(data)]: a box nests at most
    as deep as it has bytes, so the budget is taken from the input. *)
Definition Box_parse_stream (s : stream) : result (value * stream) :=
  parse (Box (S (List.length (remaining s)))) s root_context.

Definition Box_parse (data : bytes) : result value :=
  '(obj, _) <- Box_parse_stream (BytesIO data) ;; Ok obj.

(** [Box.build(obj)]: the budget is the nesting depth of the object. *)
Fixpoint value_depth (v : value) : nat :=
  match v with
  | VList items => S (list_max (map value_depth items))
  | VContainer items => S (list_max (map (fun kv => value_depth (snd kv)) items))
  | _ => O
  end.

Definition Box_build (obj : value) : result bytes :=
  '(_, data) <- build (Box (S (value_depth obj))) obj root_context ;; Ok data.

(* ================================================================== *)
(** * pymp4.util *)
(* ================================================================== *)

(** [getattr(obj, name, default)], [hasattr(obj, name)] and [obj.name] on a
    [Container], whose attributes are its keys. *)
Definition getattr_default (obj : value) (name : string) (default : value) : value :=
  match obj with
  | VContainer c => match getitem name c with Some v => v | None => default end
  | _ => default
  end.

Definition hasattr (obj : value) (name : string) : bool :=
  match obj with
  | VContainer c => match getitem name c with Some _ => true | None => false end
  | _ => false
  end.

Definition getattr (obj : value) (name : string) : result value :=
  match obj with
  | VContainer c => of_option (getitem name c) AttributeError
  | _ => Raise AttributeError
  end.

(** The loop of [BoxUtil.first]: the first child in which the recursive call
    returns; [BoxNotFound] from a child is passed over, any other exception
    leaves the loop; after the loop the function raises [BoxNotFound]. *)
Fixpoint first_loop (rec : value -> result value) (children : list value)
  : result value :=
  match children with
  | [] => Raise BoxNotFound
  | sbox :: children' =>
      match rec sbox with
      | Raise BoxNotFound => first_loop rec children'
      | r => r
      end
  end.

(** [BoxUtil.first(box, type_)].  In a parsed tree [children] is always a
    list; any other object there is reported as [TypeError]. *)
Fixpoint first (fuel : nat) (box : value) (type_ : bytes) : result value :=
  match fuel with
  | O => OutOfFuel
  | S fuel' =>
      let box_body := getattr_default box "box_body" box in
      if hasattr box_body "children" then
        children <- getattr box_body "children" ;;
        match children with
        | VList sboxes => first_loop (fun sbox => first fuel' sbox type_) sboxes
        | _ => Raise TypeError
        end
      else
        t <- getattr box "type" ;;
        if eq_literal t (LBytes type_) then Ok box else Raise BoxNotFound
  end.





(* ================================================================== *)
(** * Notions used to state the properties *)
(* ================================================================== *)

(** The type tags of the dispatch table of [Box]. *)
Definition literal_bytes (l : literal) : bytes :=
  match l with LBytes d => d | _ => [] end.

Definition Box_tags : list bytes :=
  map (fun c => literal_bytes (fst c)) (Box_cases out_of_fuel).

(** A 32-bit big-endian integer on the wire. *)
Definition u32 (n : Z) : bytes := integer2bytes_unsigned 4 n.

(** The fields that follow [type] in the three schemas that are also
    payloads of [uuid], as the source lists them. *)
Definition SampleEncryptionBox_rest : list subcon_field :=
  [ "version" /: Const (LInt 0) Int8ub;
    "flags" /: BitStruct [ anon (Padding 22);
                           "has_subsample_encryption_info" /: Flag;
                           anon (Padding 1) ];
    "sample_encryption_info" /:
      PrefixedArray Int32ub
        (Struct
           [ "iv" /: Bytes 8;
             "subsample_encryption_info" /:
               If (this__ ["flags"; "has_subsample_encryption_info"])
                  (PrefixedArray Int16ub
                     (Struct [ "clear_bytes" /: Int16ub; "cipher_bytes" /: Int32ub ])) ]) ].

Definition ProtectionSystemHeaderBox_rest : list subcon_field :=
  [ "version" /: Rebuild Int8ub pssh_version;
    "flags" /: Const (LInt 0) Int24ub;
    "system_ID" /: UUIDBytes (Bytes 16);
    "key_IDs" /: If (eq_int (this ["version"]) 1)
                    (PrefixedArray Int32ub (UUIDBytes (Bytes 16)));
    "init_data" /: Prefixed Int32ub GreedyBytes false ].

Definition TrackEncryptionBox_rest : list subcon_field :=
  [ "version" /: Const (LInt 0) Int8ub;
    "flags" /: Const (LInt 0) Int24ub;
    "is_encrypted" /: Int24ub;
    "iv_size" /: Int8ub;
    "key_ID" /: UUIDBytes (Bytes 16) ].

(** [tag_gated_by_uuid schema tag rest]: what the [type] field of [schema]
    does, given that [rest] are the fields after it.  Under an enclosing
    structure of type [uuid] the parse of [schema] is the parse of [rest]
    from the very same stream position, with [type] set to [None]: no byte
    is read for the tag.  Under any other enclosing type the next four bytes
    are read: when they are [tag] the fields [rest] are parsed after them
    with [type] set to [tag]; when they differ the parse raises
    [ConstError]; when fewer than four bytes are left it raises
    [StreamError]. *)
Definition tag_gated_by_uuid (schema : Construct) (tag : bytes)
    (rest : list subcon_field) : Prop :=
  (forall s enclosing ctx,
      getitem "type" enclosing = Some (VBytes (b_ "uuid")) ->
      parse schema s (enclosing :: ctx)
      = Struct_parse rest s [("type", VNone)] (enclosing :: ctx))
  /\ (forall s enclosing ctx t,
        getitem "type" enclosing = Some t -> t <> VBytes (b_ "uuid") ->
        (forall after,
            remaining s = tag ++ after ->
            parse schema s (enclosing :: ctx)
            = Struct_parse rest (mkstream (tell s + 4) after)
                [("type", VBytes tag)] (enclosing :: ctx))
        /\ (forall found after,
              remaining s = found ++ after -> List.length found = 4%nat ->
              found <> tag ->
              parse schema s (enclosing :: ctx) = Raise ConstError)
        /\ (forall found,
              remaining s = found -> (List.length found < 4)%nat ->
              parse schema s (enclosing :: ctx) = Raise StreamError)).

(** The body of a track-encryption structure on the wire (version 0, flags
    0, [is_encrypted] on 3 bytes, [iv_size], the 16 bytes of the key
    identifier) and what it parses to, [ty] being the value of [type]. *)
Definition tenc_wire (enc : bytes) (iv : byte) (key : bytes) : bytes :=
  [x00] ++ [x00; x00; x00] ++ enc ++ [iv] ++ key.

Definition tenc_value (ty : value) (enc : bytes) (iv : byte) (key : bytes) : value :=
  VContainer
    [ ("type", ty); ("version", VInt 0); ("flags", VInt 0);
      ("is_encrypted", VInt (bytes2integer enc false));
      ("iv_size", VInt (bytes2integer [iv] false));
      ("key_ID", VUUID key) ].

(** How [TrackEncryptionBox] treats the four inputs: a body without and
    with the tag in front, under [uuid] and under another enclosing type. *)
Definition tenc_tag_cases : Prop :=
  forall (enc : bytes) (iv : byte) (key after : bytes) (p : Z)
         (enclosing : container) (ctx : context) (t : value),
    List.length enc = 3%nat -> List.length key = 16%nat ->
    getitem "type" enclosing = Some t ->
    let body := tenc_wire enc iv key in
    (t = VBytes (b_ "uuid") ->
     parse TrackEncryptionBox (mkstream p (body ++ after)) (enclosing :: ctx)
     = Ok (tenc_value VNone enc iv key, mkstream (p + 24) after)
     /\ parse TrackEncryptionBox (mkstream p (b_ "tenc" ++ body ++ after))
                (enclosing :: ctx)
        = Raise ConstError)
    /\ (t <> VBytes (b_ "uuid") ->
        parse TrackEncryptionBox (mkstream p (b_ "tenc" ++ body ++ after))
              (enclosing :: ctx)
        = Ok (tenc_value (VBytes (b_ "tenc")) enc iv key, mkstream (p + 28) after)
        /\ parse TrackEncryptionBox (mkstream p (body ++ after)) (enclosing :: ctx)
           = Raise ConstError).




(** ** Wire forms of the flag-gated boxes

    Bit [i] of a byte, counted from the least significant one; a chunk of
    bytes that is on the wire only when a flag is set, and the integer it
    parses to. *)
Definition bit (c : byte) (i : Z) : bool := Z.testbit (byte2int c) i.

Definition opt (present : bool) (d : bytes) : bytes := if present then d else [].

Definition opt_int (present signed : bool) (d : bytes) : value :=
  if present then VInt (bytes2integer d signed) else VNone.

Definition chunk_ok (present : bool) (d : bytes) (n : nat) : Prop :=
  present = true -> List.length d = n.

Definition clear_bits (c : byte) (mask : Z) : byte := int2byte (Z.land (byte2int c) mask).

(** What the four bytes of a [TrackSampleFlags] parse to, and the four bytes
    with the reserved bits (the high half of the first byte) cleared. *)
Definition TrackSampleFlags_value (d : bytes) : value :=
  match parse TrackSampleFlags (BytesIO d) [] with
  | Ok (v, _) => v
  | _ => VNone
  end.

Definition TrackSampleFlags_canonical (d : bytes) : bytes :=
  match d with
  | a :: d' => clear_bits a 0x0F :: d'
  | [] => []
  end.

(** A [tfhd] body: the version, the three flag bytes, the track identifier
    (4 bytes) and the five optional chunks (8, 4, 4, 4 and 4 bytes). *)
Record tfhd : Type := mk_tfhd {
  tfhd_version : byte;
  tfhd_f0 : byte;
  tfhd_f1 : byte;
  tfhd_f2 : byte;
  tfhd_track_ID : bytes;
  tfhd_base_data_offset : bytes;
  tfhd_sample_description_index : bytes;
  tfhd_default_sample_duration : bytes;
  tfhd_default_sample_size : bytes;
  tfhd_default_sample_flags : bytes
}.

(** The flag bits, by their position in the 24-bit flags integer:
    0x000001, 0x000002, 0x000008, 0x000010, 0x000020, 0x010000, 0x020000. *)
Definition base_data_offset_present (x : tfhd) : bool := bit (tfhd_f2 x) 0.
Definition sample_description_index_present (x : tfhd) : bool := bit (tfhd_f2 x) 1.
Definition default_sample_duration_present (x : tfhd) : bool := bit (tfhd_f2 x) 3.
Definition default_sample_size_present (x : tfhd) : bool := bit (tfhd_f2 x) 4.
Definition default_sample_flags_present (x : tfhd) : bool := bit (tfhd_f2 x) 5.
Definition duration_is_empty (x : tfhd) : bool := bit (tfhd_f0 x) 0.
Definition default_base_is_moof (x : tfhd) : bool := bit (tfhd_f0 x) 1.

Definition tfhd_wire (x : tfhd) : bytes :=
  b_ "tfhd" ++ [tfhd_version x; tfhd_f0 x; tfhd_f1 x; tfhd_f2 x]
  ++ tfhd_track_ID x
  ++ opt (base_data_offset_present x) (tfhd_base_data_offset x)
  ++ opt (sample_description_index_present x) (tfhd_sample_description_index x)
  ++ opt (default_sample_duration_present x) (tfhd_default_sample_duration x)
  ++ opt (default_sample_size_present x) (tfhd_default_sample_size x)
  ++ opt (default_sample_flags_present x) (tfhd_default_sample_flags x).

Definition tfhd_ok (x : tfhd) : Prop :=
  List.length (tfhd_track_ID x) = 4%nat
  /\ chunk_ok (base_data_offset_present x) (tfhd_base_data_offset x) 8
  /\ chunk_ok (sample_description_index_present x) (tfhd_sample_description_index x) 4
  /\ chunk_ok (default_sample_duration_present x) (tfhd_default_sample_duration x) 4
  /\ chunk_ok (default_sample_size_present x) (tfhd_default_sample_size x) 4
  /\ chunk_ok (default_sample_flags_present x) (tfhd_default_sample_flags x) 4.

Definition tfhd_flags_value (x : tfhd) : value :=
  VContainer
    [ ("default_base_is_moof", VBool (default_base_is_moof x));
      ("duration_is_empty", VBool (duration_is_empty x));
      ("default_sample_flags_present", VBool (default_sample_flags_present x));
      ("default_sample_size_present", VBool (default_sample_size_present x));
      ("default_sample_duration_present", VBool (default_sample_duration_present x));
      ("sample_description_index_present", VBool (sample_description_index_present x));
      ("base_data_offset_present", VBool (base_data_offset_present x)) ].

Definition tfhd_value (x : tfhd) : value :=
  VContainer
    [ ("type", VBytes (b_ "tfhd"));
      ("version", VInt (bytes2integer [tfhd_version x] false));
      ("flags", tfhd_flags_value x);
      ("track_ID", VInt (bytes2integer (tfhd_track_ID x) false));
      ("base_data_offset",
       opt_int (base_data_offset_present x) false (tfhd_base_data_offset x));
      ("sample_description_index",
       opt_int (sample_description_index_present x) false
               (tfhd_sample_description_index x));
      ("default_sample_duration",
       opt_int (default_sample_duration_present x) false
               (tfhd_default_sample_duration x));
      ("default_sample_size",
       opt_int (default_sample_size_present x) false (tfhd_default_sample_size x));
      ("default_sample_flags",
       if default_sample_flags_present x
       then TrackSampleFlags_value (tfhd_default_sample_flags x)
       else VNone) ].

(** The same body with the reserved bits cleared: what the builder writes. *)
Definition tfhd_canonical (x : tfhd) : tfhd :=
  {| tfhd_version := tfhd_version x;
     tfhd_f0 := clear_bits (tfhd_f0 x) 0x03;
     tfhd_f1 := x00;
     tfhd_f2 := clear_bits (tfhd_f2 x) 0x3B;
     tfhd_track_ID := tfhd_track_ID x;
     tfhd_base_data_offset := tfhd_base_data_offset x;
     tfhd_sample_description_index := tfhd_sample_description_index x;
     tfhd_default_sample_duration := tfhd_default_sample_duration x;
     tfhd_default_sample_size := tfhd_default_sample_size x;
     tfhd_default_sample_flags :=
       TrackSampleFlags_canonical (tfhd_default_sample_flags x) |}.

(** A field of a parsed structure is present when it is not [None]. *)
Definition field_present (v : value) (name : string) : Prop :=
  exists w, getattr_path [name] v = Ok w /\ w <> VNone.

Definition flag_set (v : value) (name : string) : Prop :=
  getattr_path ["flags"; name] v = Ok (VBool true).




(** A [trun] body: the version, the three flag bytes, the sample count
    (4 bytes), the two optional chunks of the run and, for each sample, its
    four optional chunks (4 bytes each). *)
Record trun_sample : Type := mk_trun_sample {
  sample_duration : bytes;
  sample_size : bytes;
  sample_flags : bytes;
  sample_composition_time_offsets : bytes
}.

Record trun : Type := mk_trun {
  trun_version : byte;
  trun_f0 : byte;
  trun_f1 : byte;
  trun_f2 : byte;
  trun_sample_count : bytes;
  trun_data_offset : bytes;
  trun_first_sample_flags : bytes;
  trun_sample_info : list trun_sample
}.

(** The flag bits, by their position in the 24-bit flags integer:
    0x000001, 0x000004, 0x000100, 0x000200, 0x000400, 0x000800. *)
Definition data_offset_present (x : trun) : bool := bit (trun_f2 x) 0.
Definition first_sample_flags_present (x : trun) : bool := bit (trun_f2 x) 2.
Definition sample_duration_present (x : trun) : bool := bit (trun_f1 x) 0.
Definition sample_size_present (x : trun) : bool := bit (trun_f1 x) 1.
Definition sample_flags_present (x : trun) : bool := bit (trun_f1 x) 2.
Definition sample_composition_time_offsets_present (x : trun) : bool :=
  bit (trun_f1 x) 3.

(** The composition time offset of a sample is read only when its flag is
    set and the version is one the [Switch] knows, 0 or 1. *)
Definition offsets_read (x : trun) : bool :=
  sample_composition_time_offsets_present x && (byte2int (trun_version x) <=? 1).

Definition offsets_signed (x : trun) : bool := byte2int (trun_version x) =? 1.

Definition trun_sample_wire (x : trun) (e : trun_sample) : bytes :=
  opt (sample_duration_present x) (sample_duration e)
  ++ opt (sample_size_present x) (sample_size e)
  ++ opt (sample_flags_present x) (sample_flags e)
  ++ opt (offsets_read x) (sample_composition_time_offsets e).

Definition trun_wire (x : trun) : bytes :=
  b_ "trun" ++ [trun_version x; trun_f0 x; trun_f1 x; trun_f2 x]
  ++ trun_sample_count x
  ++ opt (data_offset_present x) (trun_data_offset x)
  ++ opt (first_sample_flags_present x) (trun_first_sample_flags x)
  ++ flat_map (trun_sample_wire x) (trun_sample_info x).

Definition trun_sample_ok (x : trun) (e : trun_sample) : Prop :=
  chunk_ok (sample_duration_present x) (sample_duration e) 4
  /\ chunk_ok (sample_size_present x) (sample_size e) 4
  /\ chunk_ok (sample_flags_present x) (sample_flags e) 4
  /\ chunk_ok (offsets_read x) (sample_composition_time_offsets e) 4.

Definition trun_ok (x : trun) : Prop :=
  List.length (trun_sample_count x) = 4%nat
  /\ bytes2integer (trun_sample_count x) false
     = Z.of_nat (List.length (trun_sample_info x))
  /\ chunk_ok (data_offset_present x) (trun_data_offset x) 4
  /\ chunk_ok (first_sample_flags_present x) (trun_first_sample_flags x) 4
  /\ Forall (trun_sample_ok x) (trun_sample_info x).

Definition trun_flags_value (x : trun) : value :=
  VContainer
    [ ("sample_composition_time_offsets_present",
       VBool (sample_composition_time_offsets_present x));
      ("sample_flags_present", VBool (sample_flags_present x));
      ("sample_size_present", VBool (sample_size_present x));
      ("sample_duration_present", VBool (sample_duration_present x));
      ("first_sample_flags_present", VBool (first_sample_flags_present x));
      ("data_offset_present", VBool (data_offset_present x)) ].

Definition trun_sample_value (x : trun) (e : trun_sample) : value :=
  VContainer
    [ ("sample_duration", opt_int (sample_duration_present x) false (sample_duration e));
      ("sample_size", opt_int (sample_size_present x) false (sample_size e));
      ("sample_flags",
       if sample_flags_present x then TrackSampleFlags_value (sample_flags e)
       else VNone);
      ("sample_composition_time_offsets",
       opt_int (offsets_read x) (offsets_signed x)
               (sample_composition_time_offsets e)) ].

Definition trun_value (x : trun) : value :=
  VContainer
    [ ("type", VBytes (b_ "trun"));
      ("version", VInt (bytes2integer [trun_version x] false));
      ("flags", trun_flags_value x);
      ("sample_count", VInt (bytes2integer (trun_sample_count x) false));
      ("data_offset", opt_int (data_offset_present x) true (trun_data_offset x));
      ("first_sample_flags",
       opt_int (first_sample_flags_present x) false (trun_first_sample_flags x));
      ("sample_info", VList (map (trun_sample_value x) (trun_sample_info x))) ].

(** The same body with the reserved bits cleared: what the builder writes. *)
Definition trun_sample_canonical (e : trun_sample) : trun_sample :=
  {| sample_duration := sample_duration e;
     sample_size := sample_size e;
     sample_flags := TrackSampleFlags_canonical (sample_flags e);
     sample_composition_time_offsets := sample_composition_time_offsets e |}.

Definition trun_canonical (x : trun) : trun :=
  {| trun_version := trun_version x;
     trun_f0 := x00;
     trun_f1 := clear_bits (trun_f1 x) 0x0F;
     trun_f2 := clear_bits (trun_f2 x) 0x05;
     trun_sample_count := trun_sample_count x;
     trun_data_offset := trun_data_offset x;
     trun_first_sample_flags := trun_first_sample_flags x;
     trun_sample_info := map trun_sample_canonical (trun_sample_info x) |}.

(** The entries of the [sample_info] of a parsed [trun]. *)
Definition samples_of (v : value) : list value :=
  match getattr_path ["sample_info"] v with
  | Ok (VList items) => items
  | _ => []
  end.

(*SPECDEFS*)

(* ================================================================== *)
(** * Properties *)
(* ================================================================== *)

Arguments bytes_eqb : simpl never.
Arguments byte2int : simpl never.
Arguments int2byte : simpl never.
Arguments bit_of : simpl never.
Arguments bytes2integer : simpl never.
Arguments bits2integer : simpl never.
Arguments integer2bytes : simpl never.
Arguments integer2bits : simpl never.
Arguments Z.pow : simpl never.
Arguments Z.add !_ !_.
Arguments Z.sub !_ !_.
Arguments Z.mul !_ !_.
Arguments Z.opp !_.
Arguments Z.div !_ !_.
Arguments Z.modulo !_ !_.
Arguments Z.ltb !_ !_.
Arguments Z.leb !_ !_.
Arguments Z.eqb !_ !_.
Arguments Z.max !_ !_.
Arguments Z.of_nat !_.
Arguments Z.to_nat !_.
Arguments Z.testbit !_ !_.
Arguments Z.odd !_.
Arguments Z.land !_ !_.

(** ** Bytes *)

Lemma byte2int_range (c : byte) : 0 <= byte2int c < 256.
Proof.
  unfold byte2int. pose proof (Byte.to_N_bounded c). lia.
Qed.

Lemma int2byte_byte2int (c : byte) : int2byte (byte2int c) = c.
Proof.
  unfold int2byte. rewrite Z.mod_small by apply byte2int_range.
  unfold byte2int. rewrite N2Z.id, Byte.of_to_N. reflexivity.
Qed.

Lemma byte2int_int2byte (z : Z) : byte2int (int2byte z) = z mod 256.
Proof.
  unfold int2byte, byte2int.
  pose proof (Z.mod_pos_bound z 256 ltac:(lia)) as Hr.
  destruct (Byte.of_N (Z.to_N (z mod 256))) as [c|] eqn:E.
  - apply Byte.to_of_N in E. rewrite E. lia.
  - apply Byte.of_N_None_iff in E. lia.
Qed.

Lemma byte2int_inj (c d : byte) : byte2int c = byte2int d -> c = d.
Proof.
  intros H. rewrite <- (int2byte_byte2int c), <- (int2byte_byte2int d).
  now rewrite H.
Qed.

Lemma bytes_eqb_eq (x y : bytes) : bytes_eqb x y = true <-> x = y.
Proof.
  revert y. induction x as [|a x IH]; intros [|c y]; cbn; split; intros H;
    try reflexivity; try discriminate.
  - apply andb_true_iff in H as [H1 H2].
    apply Byte.byte_dec_bl in H1. apply IH in H2. now subst.
  - injection H as -> ->. apply andb_true_iff. split.
    + now apply Byte.byte_dec_lb.
    + now apply IH.
Qed.

Lemma bytes_eqb_refl (x : bytes) : bytes_eqb x x = true.
Proof. now apply bytes_eqb_eq. Qed.

Lemma bytes_eqb_neq (x y : bytes) : x <> y -> bytes_eqb x y = false.
Proof.
  intros H. destruct (bytes_eqb x y) eqn:E; [|reflexivity].
  apply bytes_eqb_eq in E. contradiction.
Qed.

(** ** Reading from a stream *)

Lemma take_app (h t : bytes) : take (Z.of_nat (List.length h)) (h ++ t) = Some (h, t).
Proof.
  induction h as [|c h IH].
  - cbn. destruct t; reflexivity.
  - cbn [List.length app take].
    destruct (Z.of_nat (S (List.length h)) <=? 0) eqn:E; [lia|].
    replace (Z.of_nat (S (List.length h)) - 1) with (Z.of_nat (List.length h)) by lia.
    now rewrite IH.
Qed.

Lemma take_inv (n : Z) (data h t : bytes) :
  take n data = Some (h, t) ->
  data = h ++ t /\ Z.of_nat (List.length h) = Z.max 0 n.
Proof.
  revert n h t. induction data as [|c data IH]; intros n h t; cbn [take].
  - destruct (n <=? 0) eqn:E; [|discriminate].
    intros [= <- <-]. cbn. split; [reflexivity|lia].
  - destruct (n <=? 0) eqn:E.
    + intros [= <- <-]. cbn. split; [reflexivity|lia].
    + destruct (take (n - 1) data) as [[h' t']|] eqn:E'; [|discriminate].
      intros [= <- <-]. apply IH in E' as [-> Hl].
      cbn [List.length app]. split; [reflexivity|lia].
Qed.

Lemma stream_read_app (p : Z) (h t : bytes) :
  stream_read (mkstream p (h ++ t)) (Z.of_nat (List.length h))
  = Ok (h, mkstream (p + Z.of_nat (List.length h)) t).
Proof.
  unfold stream_read. cbn [remaining tell].
  destruct (Z.of_nat (List.length h) <? 0) eqn:E; [lia|].
  now rewrite take_app.
Qed.


Lemma stream_read_negative (s : stream) (n : Z) :
  n < 0 -> stream_read s n = Raise StreamError.
Proof.
  intros H. unfold stream_read. destruct (n <? 0) eqn:E; [reflexivity|lia].
Qed.

(** ** Big-endian integers *)

Lemma pow256_succ (w : nat) :
  2 ^ (8 * Z.of_nat (S w)) = 256 * 2 ^ (8 * Z.of_nat w).
Proof.
  replace (8 * Z.of_nat (S w)) with (8 + 8 * Z.of_nat w) by lia.
  rewrite Z.pow_add_r by lia. reflexivity.
Qed.

Lemma pow256_pos (w : nat) : 0 < 2 ^ (8 * Z.of_nat w).
Proof. apply Z.pow_pos_nonneg; lia. Qed.

Lemma length_integer2bytes_unsigned (w : nat) (n : Z) :
  List.length (integer2bytes_unsigned w n) = w.
Proof.
  revert n. induction w as [|w IH]; intros n; cbn; [reflexivity|].
  rewrite length_app, IH. cbn. lia.
Qed.

Lemma bytes2integer_unsigned_snoc (data : bytes) (c : byte) :
  bytes2integer_unsigned (data ++ [c]) = bytes2integer_unsigned data * 256 + byte2int c.
Proof. unfold bytes2integer_unsigned. now rewrite fold_left_app. Qed.

Lemma bytes2integer_unsigned_range (data : bytes) :
  0 <= bytes2integer_unsigned data < 2 ^ (8 * Z.of_nat (List.length data)).
Proof.
  induction data as [|c data IH] using rev_ind.
  - cbn. lia.
  - rewrite bytes2integer_unsigned_snoc, length_app. cbn [List.length].
    replace (List.length data + 1)%nat with (S (List.length data)) by lia.
    rewrite pow256_succ. pose proof (byte2int_range c). lia.
Qed.

Lemma bytes2integer_integer2bytes_unsigned (w : nat) (n : Z) :
  bytes2integer_unsigned (integer2bytes_unsigned w n) = n mod 2 ^ (8 * Z.of_nat w).
Proof.
  revert n. induction w as [|w IH]; intros n.
  - cbn. now rewrite Z.mod_1_r.
  - cbn [integer2bytes_unsigned].
    rewrite bytes2integer_unsigned_snoc, IH, byte2int_int2byte, pow256_succ.
    rewrite Z.rem_mul_r by (pose proof (pow256_pos w); lia). lia.
Qed.

Lemma integer2bytes_bytes2integer_unsigned (data : bytes) :
  integer2bytes_unsigned (List.length data) (bytes2integer_unsigned data) = data.
Proof.
  induction data as [|c data IH] using rev_ind; [reflexivity|].
  rewrite bytes2integer_unsigned_snoc, length_app. cbn [List.length].
  replace (List.length data + 1)%nat with (S (List.length data)) by lia.
  cbn [integer2bytes_unsigned]. pose proof (byte2int_range c) as Hc.
  f_equal.
  - replace ((bytes2integer_unsigned data * 256 + byte2int c) / 256)
      with (bytes2integer_unsigned data); [exact IH|].
    rewrite Z.div_add_l by lia. rewrite Z.div_small by lia. lia.
  - f_equal. apply byte2int_inj. rewrite byte2int_int2byte.
    rewrite Z.add_comm, Z.mod_add by lia. now rewrite Z.mod_small.
Qed.

Lemma bytes2integer_range (data : bytes) (signed : bool) :
  in_range (bytes2integer data signed) (8 * Z.of_nat (List.length data)) signed = true.
Proof.
  unfold bytes2integer, in_range.
  pose proof (bytes2integer_unsigned_range data) as Hr.
  destruct signed; cbn [andb]; [|lia].
  destruct (2 ^ (8 * Z.of_nat (List.length data)) <=? 2 * bytes2integer_unsigned data) eqn:E; lia.
Qed.

Lemma integer2bytes_bytes2integer (data : bytes) (signed : bool) :
  integer2bytes (bytes2integer data signed) (List.length data) signed = Some data.
Proof.
  unfold integer2bytes. rewrite bytes2integer_range. f_equal.
  set (w := 2 ^ (8 * Z.of_nat (List.length data))).
  assert (H : (if bytes2integer data signed <? 0
               then bytes2integer data signed + w
               else bytes2integer data signed) = bytes2integer_unsigned data).
  { unfold bytes2integer. fold w.
    pose proof (bytes2integer_unsigned_range data) as Hr. fold w in Hr.
    destruct signed; cbn [andb].
    - destruct (w <=? 2 * bytes2integer_unsigned data) eqn:E.
      + destruct (bytes2integer_unsigned data - w <? 0) eqn:E2; lia.
      + destruct (bytes2integer_unsigned data <? 0) eqn:E2; lia.
    - destruct (bytes2integer_unsigned data <? 0) eqn:E2; lia. }
  rewrite H. apply integer2bytes_bytes2integer_unsigned.
Qed.

Lemma bytes2integer_integer2bytes (w : nat) (n : Z) :
  0 <= n < 2 ^ (8 * Z.of_nat w) ->
  bytes2integer (integer2bytes_unsigned w n) false = n.
Proof.
  intros H. unfold bytes2integer. cbn [andb].
  rewrite bytes2integer_integer2bytes_unsigned. now apply Z.mod_small.
Qed.

Lemma integer2bytes_unsigned_ok (w : nat) (n : Z) :
  0 <= n < 2 ^ (8 * Z.of_nat w) ->
  integer2bytes n w false = Some (integer2bytes_unsigned w n).
Proof.
  intros H. unfold integer2bytes, in_range.
  destruct ((0 <=? n) && (n <? 2 ^ (8 * Z.of_nat w))) eqn:E; [|lia].
  destruct (n <? 0) eqn:E2; [lia|reflexivity].
Qed.

(** ** The length prefix of [Box] *)

Lemma stream_read_prefix (s : stream) (prefix rest : bytes) (n : Z) :
  remaining s = prefix ++ rest -> Z.of_nat (List.length prefix) = n ->
  stream_read s n = Ok (prefix, mkstream (tell s + n) rest).
Proof.
  intros Hs <-. destruct s as [p data]. cbn in Hs. subst data.
  apply stream_read_app.
Qed.

Lemma parse_FormatField_prefix (w : nat) (signed : bool) (s : stream)
    (prefix rest : bytes) (ctx : context) :
  remaining s = prefix ++ rest -> List.length prefix = w ->
  parse (FormatField w signed) s ctx
  = Ok (VInt (bytes2integer prefix signed), mkstream (tell s + Z.of_nat w) rest).
Proof.
  intros Hs Hl. cbn [parse FormatField].
  rewrite (stream_read_prefix s prefix rest) by (auto; lia). reflexivity.
Qed.

(** What [Box] does once the prefix is read: the region of [L - 4] bytes is
    cut off and handed to the inner [Struct]. *)
Lemma parse_Box_prefix (fuel : nat) (s : stream) (prefix rest : bytes) (ctx : context) :
  remaining s = prefix ++ rest -> List.length prefix = 4%nat ->
  parse (Box (S fuel)) s ctx
  = ('(data, s2) <- stream_read (mkstream (tell s + 4) rest)
                                (bytes2integer prefix false - 4) ;;
     '(obj, _) <- parse (Box_struct (Box fuel)) (BytesIO data) ctx ;;
     Ok (obj, s2)).
Proof.
  intros Hs Hl. cbn [Box]. cbn [parse Prefixed].
  unfold Int32ub at 1. rewrite (parse_FormatField_prefix _ _ s prefix rest) by assumption.
  reflexivity.
Qed.

Lemma Box_length_prefix_one (fuel : nat) (s : stream) (prefix rest : bytes) (ctx : context) :
  remaining s = prefix ++ rest -> List.length prefix = 4%nat ->
  bytes2integer prefix false = 1 ->
  parse (Box (S fuel)) s ctx = Raise StreamError.
Proof.
  intros Hs Hl H1. rewrite (parse_Box_prefix fuel s prefix rest) by assumption.
  rewrite H1. rewrite stream_read_negative by lia. reflexivity.
Qed.

(** C8: an input whose leading 32-bit length prefix is 1 (the signal of the
    64-bit extended length) is rejected: [Box.parse] raises [StreamError],
    whatever follows the prefix. *)
Theorem Box_rejects_extended_length (data prefix rest : bytes) :
  data = prefix ++ rest -> List.length prefix = 4%nat ->
  bytes2integer prefix false = 1 ->
  Box_parse data = Raise StreamError.
Proof.
  intros -> Hl H1. unfold Box_parse, Box_parse_stream.
  rewrite (Box_length_prefix_one _ (BytesIO (prefix ++ rest)) prefix rest);
    auto.
Qed.

Lemma Box_rejects_extended_length_witness :
  Box_parse ([x00; x00; x00; x01] ++ b_ "moov") = Raise StreamError.
Proof.
  apply (Box_rejects_extended_length _ [x00; x00; x00; x01] (b_ "moov"));
    reflexivity.
Defined.

(** ** The language code of [mdhd] *)

(** C9: the two bytes 0x55C4 parse, as the [language] field of [mdhd], to
    the string "und": one padding bit, then the 5-bit values 21, 14 and 4,
    each decoded as value + 0x60; building "und" gives 0x55C4 back.  The
    last part shows the field inside a whole [mdhd] box. *)
Theorem language_code_und :
  (forall ctx,
     parse (BitStruct [ anon (Padding 1);
                        "language" /: Array (lit_int 3) (BitsInteger 5) ])
           (BytesIO [x55; xc4]) ctx
     = Ok (VContainer [("language", VList [VInt 21; VInt 14; VInt 4])], mkstream 2 []))
  /\ (forall ctx,
        ISO6392TLanguageCode_decode (VList [VInt 21; VInt 14; VInt 4]) ctx
        = Ok (VStr "und"))
  /\ map (fun c => byte2int c - 0x60) (b_ "und") = [21; 14; 4]
  /\ (forall ctx,
        parse MediaHeaderBox_language (BytesIO [x55; xc4]) ctx
        = Ok (VContainer [("language", VStr "und")], mkstream 2 []))
  /\ (forall ctx,
        build MediaHeaderBox_language (VContainer [("language", VStr "und")]) ctx
        = Ok (VContainer [("language", VStr "und")], [x55; xc4]))
  /\ (let mdhd := [x00; x00; x00; x20] ++ b_ "mdhd" ++ [x00; x00; x00; x00]
                  ++ [x00; x00; x00; x01] ++ [x00; x00; x00; x02]
                  ++ [x00; x00; x03; xe8] ++ [x00; x00; x00; x00]
                  ++ [x55; xc4] ++ [x00; x00] in
      (obj <- Box_parse mdhd ;; getattr_path ["box_body"; "language"; "language"] obj)
      = Ok (VStr "und")
      /\ (obj <- Box_parse mdhd ;; Box_build obj) = Ok mdhd).
Proof.
  repeat split; intros; vm_compute; reflexivity.
Qed.

(** ** Unknown type tags *)

Arguments Box_cases : simpl never.
Arguments stream_read : simpl never.

Lemma parse_Bytes_prefix (s : stream) (prefix rest : bytes) (n : Z) (ctx : context) :
  remaining s = prefix ++ rest -> Z.of_nat (List.length prefix) = n ->
  parse (Bytes n) s ctx = Ok (VBytes prefix, mkstream (tell s + n) rest).
Proof.
  intros Hs Hl. cbn [parse Bytes].
  rewrite (stream_read_prefix s prefix rest) by assumption. reflexivity.
Qed.

Lemma switch_get_bytes_miss (tag : bytes) (cases : list (literal * Construct))
    (default : Construct) :
  ~ In tag (map (fun c => literal_bytes (fst c)) cases) ->
  Forall (fun c => exists d, fst c = LBytes d) cases ->
  switch_get (VBytes tag) cases default = default.
Proof.
  induction cases as [|[l sc] cases IH]; intros Hn Hf; [reflexivity|].
  inversion Hf as [|? ? [d Hd] Hf']; subst. cbn in Hd. subst l.
  cbn [switch_get eq_literal]. cbn in Hn.
  rewrite bytes_eqb_neq by (intros ->; apply Hn; now left).
  apply IH; [|assumption]. intros Hin. apply Hn. now right.
Qed.

Lemma Box_cases_keys (B : Construct) :
  map (fun c => literal_bytes (fst c)) (Box_cases B) = Box_tags
  /\ Forall (fun c => exists d, fst c = LBytes d) (Box_cases B).
Proof.
  split.
  - unfold Box_tags, Box_cases. cbn [map fst literal_bytes]. reflexivity.
  - unfold Box_cases. repeat (apply Forall_cons; [eexists; reflexivity|]).
    apply Forall_nil.
Qed.

Lemma Box_cases_miss (B : Construct) (tag : bytes) :
  ~ In tag Box_tags -> switch_get (VBytes tag) (Box_cases B) RawBox = RawBox.
Proof.
  intros H. destruct (Box_cases_keys B) as [Hk Hf].
  apply switch_get_bytes_miss; [now rewrite Hk|assumption].
Qed.

Lemma parse_Box_struct_unknown (B : Construct) (tag data : bytes) (ctx : context) :
  List.length tag = 4%nat -> ~ In tag Box_tags ->
  parse (Box_struct B) (BytesIO (tag ++ data)) ctx
  = Ok (VContainer
          [ ("type", VBytes tag);
            ("box_body", VContainer [("type", VBytes tag); ("data", VBytes data)]);
            ("length", VInt (8 + Z.of_nat (List.length data))) ],
        mkstream (4 + Z.of_nat (List.length data)) []).
Proof.
  intros Hl Hn. unfold Box_struct. cbn.
  rewrite (stream_read_prefix (BytesIO (tag ++ data)) tag data) by (cbn; auto; lia).
  cbn. rewrite Box_cases_miss by assumption. unfold RawBox. cbn.
  rewrite (stream_read_prefix (BytesIO (tag ++ data)) tag data) by (cbn; auto; lia).
  cbn. repeat (f_equal; try lia).
Qed.

(** The framing of a box on the wire: the prefix [L], then [L - 4] bytes
    that the inner [Struct] is given as a stream of its own. *)
Lemma parse_Box_framed (fuel : nat) (p : Z) (region rest : bytes) (ctx : context) :
  4 + Z.of_nat (List.length region) < 2 ^ 32 ->
  parse (Box (S fuel))
        (mkstream p (u32 (4 + Z.of_nat (List.length region)) ++ region ++ rest)) ctx
  = ('(obj, _) <- parse (Box_struct (Box fuel)) (BytesIO region) ctx ;;
     Ok (obj, mkstream (p + (4 + Z.of_nat (List.length region))) rest)).
Proof.
  intros Hr.
  rewrite (parse_Box_prefix fuel _ (u32 (4 + Z.of_nat (List.length region)))
             (region ++ rest))
    by (cbn [remaining]; auto using length_integer2bytes_unsigned).
  unfold u32. rewrite bytes2integer_integer2bytes by (cbn; lia).
  cbn [tell].
  rewrite (stream_read_prefix _ region rest) by (cbn [remaining]; auto; lia).
  cbn [bind tell]. destruct (parse (Box_struct (Box fuel)) (BytesIO region) ctx) as [[obj s']| |];
    cbn [bind]; try reflexivity.
  repeat (f_equal; try lia).
Qed.

Lemma parse_Box_unknown (fuel : nat) (p : Z) (tag data rest : bytes) (ctx : context) :
  List.length tag = 4%nat -> ~ In tag Box_tags ->
  8 + Z.of_nat (List.length data) < 2 ^ 32 ->
  parse (Box (S fuel))
        (mkstream p (u32 (8 + Z.of_nat (List.length data)) ++ tag ++ data ++ rest)) ctx
  = Ok (VContainer
          [ ("type", VBytes tag);
            ("box_body", VContainer [("type", VBytes tag); ("data", VBytes data)]);
            ("length", VInt (8 + Z.of_nat (List.length data))) ],
        mkstream (p + (8 + Z.of_nat (List.length data))) rest).
Proof.
  intros Hl Hn Hr.
  replace (8 + Z.of_nat (List.length data)) with (4 + Z.of_nat (List.length (tag ++ data)))
    by (rewrite length_app; lia).
  rewrite (app_assoc tag data rest).
  rewrite parse_Box_framed by (rewrite length_app; lia).
  rewrite parse_Box_struct_unknown by assumption. cbn [bind].
  rewrite length_app. repeat (f_equal; try lia).
Qed.

(** C3: a box whose type tag is not in the dispatch table parses without
    error to the raw variant: [type] is the tag and [data] holds all the
    [length - 8] bytes that follow it; the bytes after the box are left in
    the stream. *)
Theorem unknown_tag_fallback (tag data rest : bytes) :
  List.length tag = 4%nat -> ~ In tag Box_tags ->
  8 + Z.of_nat (List.length data) < 2 ^ 32 ->
  let L := 8 + Z.of_nat (List.length data) in
  Box_parse_stream (BytesIO (u32 L ++ tag ++ data ++ rest))
  = Ok (VContainer
          [ ("type", VBytes tag);
            ("box_body", VContainer [("type", VBytes tag); ("data", VBytes data)]);
            ("length", VInt L) ],
        mkstream L rest)
  /\ Z.of_nat (List.length data) = L - 8.
Proof.
  intros Hl Hn Hr L. split; [|subst L; lia].
  unfold Box_parse_stream, BytesIO. apply parse_Box_unknown; assumption.
Qed.

Lemma unknown_tag_fallback_witness :
  Box_parse_stream (BytesIO (u32 10 ++ b_ "xxxx" ++ [xde; xad] ++ [x00]))
  = Ok (VContainer
          [ ("type", VBytes (b_ "xxxx"));
            ("box_body", VContainer [("type", VBytes (b_ "xxxx")); ("data", VBytes [xde; xad])]);
            ("length", VInt 10) ],
        mkstream 10 [x00])
  /\ 2 = 10 - 8.
Proof.
  apply (unknown_tag_fallback (b_ "xxxx") [xde; xad] [x00]).
  - reflexivity.
  - vm_compute. intuition discriminate.
  - reflexivity.
Defined.

(** ** Evaluating a parse on a known wire form *)

Arguments u32 : simpl never.
Arguments enum_decode : simpl never.
Arguments integer2bytes_unsigned : simpl never.
Arguments bytes2bits : simpl never.

Lemma bytes2integer_u32 (n : Z) : 0 <= n < 2 ^ 32 -> bytes2integer (u32 n) false = n.
Proof. intros H. apply (bytes2integer_integer2bytes 4 n). exact H. Qed.


Ltac closed_bytes l :=
  lazymatch l with
  | nil => idtac
  | cons ?c ?l' => is_constructor c; closed_bytes l'
  end.

(** One read from a stream whose next bytes are known cells, or a 32-bit
    integer in wire form. *)
Ltac split_cells n data :=
  lazymatch n with
  | 0 => constr:((@nil byte, data))
  | _ =>
      lazymatch data with
      | ?c :: ?data' =>
          let n' := eval vm_compute in (n - 1) in
          let r := split_cells n' data' in
          lazymatch r with
          | (?h, ?t) => constr:((c :: h, t))
          end
      end
  end.

Ltac read_step :=
  match goal with
  | |- context [stream_read (mkstream ?p (u32 ?n ++ ?rest)) 4] =>
      rewrite (stream_read_prefix (mkstream p (u32 n ++ rest)) (u32 n) rest 4)
        by reflexivity
  | |- context [stream_read (mkstream ?p (?h ++ ?t)) ?n] =>
      rewrite (stream_read_prefix (mkstream p (h ++ t)) h t n)
        by (try reflexivity; unfold u32;
            rewrite ?length_integer2bytes_unsigned; lia)
  | |- context [stream_read (mkstream ?p ?data) ?n] =>
      let r := split_cells n data in
      lazymatch r with
      | (?h, ?t) =>
          rewrite (stream_read_prefix (mkstream p data) h t n) by reflexivity
      end
  | |- context [stream_read (BytesIO ?data) ?n] =>
      let r := split_cells n data in
      lazymatch r with
      | (?h, ?t) =>
          rewrite (stream_read_prefix (BytesIO data) h t n) by reflexivity
      end
  end.

(** Closed byte-level computations. *)
Ltac crunch :=
  repeat match goal with
    | |- context [bytes2bits ?d] =>
        closed_bytes d;
        let v := eval vm_compute in (bytes2bits d) in change (bytes2bits d) with v
    | |- context [bytes_eqb ?a ?c] =>
        closed_bytes a; closed_bytes c;
        let v := eval vm_compute in (bytes_eqb a c) in change (bytes_eqb a c) with v
    | |- context [bytes2integer ?d ?sg] =>
        closed_bytes d;
        let v := eval vm_compute in (bytes2integer d sg) in
        change (bytes2integer d sg) with v
    | |- context [bits2integer ?d ?sg] =>
        closed_bytes d;
        let v := eval vm_compute in (bits2integer d sg) in
        change (bits2integer d sg) with v
    | |- context [bytes2integer (u32 ?n) false] =>
        rewrite (bytes2integer_u32 n) by lia
    end.

Ltac run := repeat (cbn; crunch; rewrite <- ?app_assoc; try read_step).

(** ** The type tag of the schemas shared with [uuid] *)

Lemma stream_read_short (s : stream) (n : Z) :
  Z.of_nat (List.length (remaining s)) < n -> stream_read s n = Raise StreamError.
Proof.
  intros H. unfold stream_read. destruct (n <? 0) eqn:E; [reflexivity|].
  destruct (take n (remaining s)) as [[h t]|] eqn:E'; [|reflexivity].
  apply take_inv in E' as [E1 E2]. rewrite E1, length_app in H. lia.
Qed.

Lemma parse_Struct (fields : list subcon_field) (s : stream) (ctx : context) :
  parse (Struct fields) s ctx = Struct_parse fields s [] ctx.
Proof. reflexivity. Qed.

Lemma Struct_parse_named (name : string) (sc : Construct) (fields : list subcon_field)
    (s : stream) (obj : container) (parents : context) :
  Struct_parse (name /: sc :: fields) s obj parents
  = ('(subobj, s') <- parse sc s (obj :: parents) ;;
     Struct_parse fields s' (setitem name subobj obj) parents).
Proof. reflexivity. Qed.

Lemma parse_gated_type (tag : bytes) (s : stream) (obj enclosing : container)
    (ctx : context) (t : value) :
  getitem "type" enclosing = Some t ->
  parse (If (ne_bytes (this_ ["type"]) (b_ "uuid")) (ConstBytes tag)) s
        (obj :: enclosing :: ctx)
  = match t with
    | VBytes d => if bytes_eqb d (b_ "uuid") then Ok (VNone, s)
                  else parse (ConstBytes tag) s (obj :: enclosing :: ctx)
    | _ => parse (ConstBytes tag) s (obj :: enclosing :: ctx)
    end.
Proof.
  intros H. unfold If. cbn [parse IfThenElse].
  unfold ne_bytes, this_, this. cbn [tl getattr_path]. rewrite H. cbn [bind].
  destruct t; try reflexivity. cbn [truthy].
  destruct (bytes_eqb data (b_ "uuid")); reflexivity.
Qed.

Lemma parse_gated_type_other (tag : bytes) (s : stream) (obj enclosing : container)
    (ctx : context) (t : value) :
  getitem "type" enclosing = Some t -> t <> VBytes (b_ "uuid") ->
  parse (If (ne_bytes (this_ ["type"]) (b_ "uuid")) (ConstBytes tag)) s
        (obj :: enclosing :: ctx)
  = parse (ConstBytes tag) s (obj :: enclosing :: ctx).
Proof.
  intros H Ht. rewrite (parse_gated_type _ _ _ _ _ _ H). destruct t; try reflexivity.
  rewrite bytes_eqb_neq; [reflexivity|]. intros ->. now apply Ht.
Qed.

Lemma parse_ConstBytes_prefix (tag found rest : bytes) (s : stream) (ctx : context) :
  remaining s = found ++ rest -> List.length found = List.length tag ->
  parse (ConstBytes tag) s ctx
  = if bytes_eqb found tag
    then Ok (VBytes found, mkstream (tell s + Z.of_nat (List.length tag)) rest)
    else Raise ConstError.
Proof.
  intros Hs Hl. unfold ConstBytes. cbn [parse Const].
  rewrite (parse_Bytes_prefix s found rest) by (auto; lia).
  cbn [bind eq_literal]. reflexivity.
Qed.

Lemma parse_ConstBytes_short (tag : bytes) (s : stream) (ctx : context) :
  (List.length (remaining s) < List.length tag)%nat ->
  parse (ConstBytes tag) s ctx = Raise StreamError.
Proof.
  intros H. unfold ConstBytes. cbn [parse Const Bytes].
  rewrite stream_read_short by lia. reflexivity.
Qed.

(** A [Struct] that starts with the gated [type] field. *)
Lemma gated_Struct (tag : bytes) (fields : list subcon_field) :
  List.length tag = 4%nat ->
  tag_gated_by_uuid
    (Struct ("type" /: If (ne_bytes (this_ ["type"]) (b_ "uuid")) (ConstBytes tag)
             :: fields))
    tag fields.
Proof.
  intros Hl. split.
  - intros s enclosing ctx H.
    rewrite parse_Struct, Struct_parse_named, (parse_gated_type _ _ _ _ _ _ H).
    rewrite bytes_eqb_refl. reflexivity.
  - intros s enclosing ctx t H Ht. repeat split.
    + intros after Hs.
      rewrite parse_Struct, Struct_parse_named,
        (parse_gated_type_other _ _ _ _ _ _ H Ht).
      rewrite (parse_ConstBytes_prefix tag tag after) by auto.
      rewrite bytes_eqb_refl, Hl. reflexivity.
    + intros found after Hs Hf Hne.
      rewrite parse_Struct, Struct_parse_named,
        (parse_gated_type_other _ _ _ _ _ _ H Ht).
      rewrite (parse_ConstBytes_prefix tag found after) by (auto; lia).
      rewrite bytes_eqb_neq by assumption. reflexivity.
    + intros found Hs Hf.
      rewrite parse_Struct, Struct_parse_named,
        (parse_gated_type_other _ _ _ _ _ _ H Ht).
      rewrite parse_ConstBytes_short by (rewrite Hs; lia). reflexivity.
Qed.

Lemma Struct_parse_tenc_rest (ty : value) (enc : bytes) (iv : byte)
    (key after : bytes) (p : Z) (ctx : context) :
  List.length enc = 3%nat -> List.length key = 16%nat ->
  Struct_parse TrackEncryptionBox_rest (mkstream p (tenc_wire enc iv key ++ after))
    [("type", ty)] ctx
  = Ok (tenc_value ty enc iv key, mkstream (p + 24) after).
Proof.
  intros He Hk. unfold TrackEncryptionBox_rest, tenc_wire, tenc_value.
  run. rewrite Hk. cbn. repeat (f_equal; try lia).
Qed.

Lemma Struct_parse_tenc_rest_tag (ty : value) (data : bytes) (p : Z) (ctx : context) :
  Struct_parse TrackEncryptionBox_rest (mkstream p (b_ "tenc" ++ data))
    [("type", ty)] ctx
  = Raise ConstError.
Proof. unfold TrackEncryptionBox_rest. run. reflexivity. Qed.

Lemma tenc_tag_cases_hold : tenc_tag_cases.
Proof.
  intros enc iv key after p enclosing ctx t He Hk Ht body. subst body.
  destruct (gated_Struct (b_ "tenc") TrackEncryptionBox_rest eq_refl) as [Hu Ho].
  change (Struct _) with TrackEncryptionBox in Hu, Ho.
  split.
  - intros ->. split.
    + rewrite (Hu _ _ _ Ht). now apply Struct_parse_tenc_rest.
    + rewrite (Hu _ _ _ Ht). apply Struct_parse_tenc_rest_tag.
  - intros Hne.
    destruct (Ho (mkstream p (b_ "tenc" ++ tenc_wire enc iv key ++ after)) _ ctx _ Ht Hne)
      as [Htag _].
    destruct (Ho (mkstream p (tenc_wire enc iv key ++ after)) _ ctx _ Ht Hne)
      as [_ [Hdiff _]].
    split.
    + rewrite (Htag (tenc_wire enc iv key ++ after) eq_refl). cbn [tell].
      rewrite Struct_parse_tenc_rest by assumption. repeat (f_equal; try lia).
    + destruct enc as [|e0 [|e1 [|e2 [|]]]]; try discriminate He.
      apply (Hdiff [x00; x00; x00; x00] ([e0; e1; e2] ++ [iv] ++ key ++ after)).
      * unfold tenc_wire. cbn. reflexivity.
      * reflexivity.
      * discriminate.
Qed.

(** C10: in [senc], [pssh] and [tenc] the constant tag of the [type] field
    is left out, and no byte is read for it, exactly when the enclosing
    structure has the type [uuid]: the fields after [type] are then parsed
    from the position where the structure starts.  Under any other enclosing
    type the four bytes must be the tag ([ConstError] when they differ,
    [StreamError] when they are missing).  For [tenc] the four cases are
    spelled out on every body; the closed parts run the three payloads
    through [Box], inside [uuid] without the inner tag and as top-level
    boxes with it. *)
Theorem uuid_payload_has_no_type_tag :
  tag_gated_by_uuid SampleEncryptionBox (b_ "senc") SampleEncryptionBox_rest
  /\ tag_gated_by_uuid ProtectionSystemHeaderBox (b_ "pssh")
       ProtectionSystemHeaderBox_rest
  /\ tag_gated_by_uuid TrackEncryptionBox (b_ "tenc") TrackEncryptionBox_rest
  /\ tenc_tag_cases
  /\ (let iv := [x01; x02; x03; x04; x05; x06; x07; x08] in
      let payload := [x00] ++ [x00; x00; x00] ++ u32 1 ++ iv in
      let body ty :=
        VContainer
          [ ("type", ty); ("version", VInt 0);
            ("flags", VContainer [("has_subsample_encryption_info", VBool false)]);
            ("sample_encryption_info",
             VList [VContainer [("iv", VBytes iv);
                                ("subsample_encryption_info", VNone)]]) ] in
      (obj <- Box_parse (u32 40 ++ b_ "uuid"
                         ++ UUID "A2394F52-5A9B-4F14-A244-6C427C648DF4" ++ payload) ;;
       getattr_path ["box_body"; "data"] obj)
      = Ok (body VNone)
      /\ (obj <- Box_parse (u32 24 ++ b_ "senc" ++ payload) ;;
          getattr_path ["box_body"] obj)
         = Ok (body (VBytes (b_ "senc"))))
  /\ (let system := UUID "EDEF8BA9-79D6-4ACE-A3C8-27DCD51D21ED" in
      let payload := [x00] ++ [x00; x00; x00] ++ system ++ u32 2 ++ [xca; xfe] in
      let body ty :=
        VContainer
          [ ("type", ty); ("version", VInt 0); ("flags", VInt 0);
            ("system_ID", VUUID system); ("key_IDs", VNone);
            ("init_data", VBytes [xca; xfe]) ] in
      (obj <- Box_parse (u32 50 ++ b_ "uuid"
                         ++ UUID "D08A4F18-10F3-4A82-B6C8-32D8ABA183D3" ++ payload) ;;
       getattr_path ["box_body"; "data"] obj)
      = Ok (body VNone)
      /\ (obj <- Box_parse (u32 34 ++ b_ "pssh" ++ payload) ;;
          getattr_path ["box_body"] obj)
         = Ok (body (VBytes (b_ "pssh"))))
  /\ (let key := UUID "00112233-4455-6677-8899-AABBCCDDEEFF" in
      let payload := tenc_wire [x00; x00; x01] x08 key in
      (obj <- Box_parse (u32 48 ++ b_ "uuid"
                         ++ UUID "8974DBCE-7BE7-4C51-84F9-7148F9882554" ++ payload) ;;
       getattr_path ["box_body"; "data"] obj)
      = Ok (tenc_value VNone [x00; x00; x01] x08 key)
      /\ (obj <- Box_parse (u32 32 ++ b_ "tenc" ++ payload) ;;
          getattr_path ["box_body"] obj)
         = Ok (tenc_value (VBytes (b_ "tenc")) [x00; x00; x01] x08 key)).
Proof.
  split; [|split; [|split; [|split; [|split; [|split]]]]].
  - apply (gated_Struct (b_ "senc") SampleEncryptionBox_rest). reflexivity.
  - apply (gated_Struct (b_ "pssh") ProtectionSystemHeaderBox_rest). reflexivity.
  - apply (gated_Struct (b_ "tenc") TrackEncryptionBox_rest). reflexivity.
  - exact tenc_tag_cases_hold.
  - vm_compute. split; reflexivity.
  - vm_compute. split; reflexivity.
  - vm_compute. split; reflexivity.
Qed.

(** The theorem at a concrete payload: the same 24 bytes parse under [uuid]
    and are refused under [tenc], where the tag is missing. *)
Lemma uuid_payload_has_no_type_tag_witness :
  let key := UUID "00112233-4455-6677-8899-AABBCCDDEEFF" in
  let payload := tenc_wire [x00; x00; x01] x08 key in
  parse TrackEncryptionBox (mkstream 0 (payload ++ []))
        [[("type", VBytes (b_ "uuid"))]]
  = Ok (tenc_value VNone [x00; x00; x01] x08 key, mkstream 24 [])
  /\ parse TrackEncryptionBox (mkstream 0 (payload ++ []))
           [[("type", VBytes (b_ "tenc"))]]
     = Raise ConstError.
Proof.
  intros key payload.
  destruct uuid_payload_has_no_type_tag as [_ [_ [_ [H _]]]].
  split.
  - apply (H [x00; x00; x01] x08 key [] 0 [("type", VBytes (b_ "uuid"))] []
             (VBytes (b_ "uuid")) eq_refl eq_refl eq_refl).
    reflexivity.
  - apply (H [x00; x00; x01] x08 key [] 0 [("type", VBytes (b_ "tenc"))] []
             (VBytes (b_ "tenc")) eq_refl eq_refl eq_refl).
    discriminate.
Defined.
(** ** The offsets of [saio] *)






(** ** [BoxUtil.first] *)




(** ** Bits *)

Arguments bit : simpl never.
Arguments opt : simpl never.
Arguments opt_int : simpl never.

Lemma bit_of_cases (c : byte) (i : Z) :
  (bit c i = true /\ bit_of c i = x01) \/ (bit c i = false /\ bit_of c i = x00).
Proof. unfold bit, bit_of. destruct (Z.testbit (byte2int c) i); auto. Qed.

Lemma flag_of_bit (c : byte) (i : Z) :
  negb (bytes_eqb [bit_of c i] [x00]) = bit c i.
Proof. destruct (bit_of_cases c i) as [[-> ->]|[-> ->]]; reflexivity. Qed.

Lemma is_bit_bit_of (c : byte) (i : Z) : is_bit (bit_of c i) = true.
Proof. destruct (bit_of_cases c i) as [[_ ->]|[_ ->]]; reflexivity. Qed.

Lemma bytes2bits_cons (c : byte) (d : bytes) :
  bytes2bits (c :: d) = byte2bits c ++ bytes2bits d.
Proof. reflexivity. Qed.

Lemma bytes2bits_nil : bytes2bits [] = [].
Proof. reflexivity. Qed.

(** Bit cells of bytes that are not closed terms. *)
Ltac bits :=
  rewrite ?bytes2bits_cons, ?bytes2bits_nil; unfold byte2bits; cbn [app];
  rewrite ?flag_of_bit.

Ltac run_bits := repeat first [progress run | progress bits].

Lemma length_opt (b : bool) (d : bytes) (n : nat) :
  chunk_ok b d n -> Z.of_nat (List.length (opt b d)) = if b then Z.of_nat n else 0.
Proof. unfold chunk_ok, opt. destruct b; intros H; [rewrite H|]; auto. Qed.





Ltac unfold_tfhd :=
  unfold tfhd_wire, tfhd_value, tfhd_flags_value, tfhd_ok,
    base_data_offset_present, sample_description_index_present,
    default_sample_duration_present, default_sample_size_present,
    default_sample_flags_present, duration_is_empty, default_base_is_moof in *;
  cbn [tfhd_version tfhd_f0 tfhd_f1 tfhd_f2 tfhd_track_ID tfhd_base_data_offset
       tfhd_sample_description_index tfhd_default_sample_duration
       tfhd_default_sample_size tfhd_default_sample_flags] in *.



(** ** From a successful parse back to the wire *)











(** ** Building bit structures *)

Lemma bits2integer_unsigned_snoc (cells : bytes) (c : byte) :
  bits2integer_unsigned (cells ++ [c]) = 2 * bits2integer_unsigned cells + byte2int c.
Proof. unfold bits2integer_unsigned. now rewrite fold_left_app. Qed.

Lemma is_bit_cases (c : byte) : is_bit c = true -> c = x00 \/ c = x01.
Proof. destruct c; cbn; intros H; try discriminate; auto. Qed.

Lemma bits2integer_unsigned_range (cells : bytes) :
  forallb is_bit cells = true ->
  0 <= bits2integer_unsigned cells < 2 ^ Z.of_nat (List.length cells).
Proof.
  induction cells as [|c cells IH] using rev_ind; intros H.
  - cbn. lia.
  - rewrite forallb_app in H. apply andb_true_iff in H as [H1 H2].
    cbn in H2. rewrite andb_true_r in H2.
    rewrite bits2integer_unsigned_snoc, length_app. cbn [List.length].
    replace (Z.of_nat (List.length cells + 1)) with (1 + Z.of_nat (List.length cells)) by lia.
    rewrite Z.pow_add_r by lia. change (2 ^ 1) with 2.
    specialize (IH H1).
    destruct (is_bit_cases c H2) as [-> | ->]; change (byte2int x00) with 0;
      change (byte2int x01) with 1; lia.
Qed.

Lemma integer2bits_bits2integer_unsigned (cells : bytes) :
  forallb is_bit cells = true ->
  integer2bits_unsigned (List.length cells) (bits2integer_unsigned cells) = cells.
Proof.
  induction cells as [|c cells IH] using rev_ind; intros H; [reflexivity|].
  rewrite forallb_app in H. apply andb_true_iff in H as [H1 H2].
  cbn in H2. rewrite andb_true_r in H2.
  rewrite bits2integer_unsigned_snoc, length_app. cbn [List.length].
  replace (List.length cells + 1)%nat with (S (List.length cells)) by lia.
  cbn [integer2bits_unsigned].
  destruct (is_bit_cases c H2) as [-> | ->]; change (byte2int x00) with 0;
    change (byte2int x01) with 1.
  - rewrite Z.add_0_r, Z.mul_comm, Z.div_mul by lia. rewrite IH by assumption.
    rewrite Z.mul_comm, Z.odd_mul. reflexivity.
  - replace ((2 * bits2integer_unsigned cells + 1) / 2) with (bits2integer_unsigned cells)
      by (rewrite Z.mul_comm, Z.div_add_l by lia; cbn; lia).
    rewrite IH by assumption.
    rewrite Z.add_comm, Z.odd_add_mul_2. reflexivity.
Qed.

Lemma integer2bits_bits2integer (cells : bytes) :
  forallb is_bit cells = true ->
  integer2bits (bits2integer cells false) (List.length cells) false = Some cells.
Proof.
  intros H. unfold integer2bits, bits2integer, in_range. cbn [andb].
  pose proof (bits2integer_unsigned_range cells H) as Hr.
  destruct ((0 <=? bits2integer_unsigned cells)
            && (bits2integer_unsigned cells <? 2 ^ Z.of_nat (List.length cells))) eqn:E;
    [|lia].
  destruct (bits2integer_unsigned cells <? 0) eqn:E2; [lia|].
  now rewrite integer2bits_bits2integer_unsigned.
Qed.

Lemma build_BitsInteger_cells (n : nat) (cells : bytes) (ctx : context) :
  forallb is_bit cells = true -> List.length cells = n ->
  build (BitsInteger n) (VInt (bits2integer cells false)) ctx
  = Ok (VInt (bits2integer cells false), cells).
Proof.
  intros H <-. cbn [build BitsInteger as_int].
  rewrite integer2bits_bits2integer by assumption. reflexivity.
Qed.

(** A whole byte, and a byte whose high bits are reserved, as bit cells. *)
Lemma byte2bits_is_bit (c : byte) : forallb is_bit (byte2bits c) = true.
Proof. unfold byte2bits. cbn [forallb]. now rewrite !is_bit_bit_of. Qed.

Lemma pack_byte2bits (c : byte) : int2byte (bits2integer_unsigned (byte2bits c)) = c.
Proof. destruct c; vm_compute; reflexivity. Qed.

Arguments bits2bytes : simpl never.

Lemma bits2bytes_cons8 (b7 b6 b5 b4 b3 b2 b1 b0 : byte) (cells : bytes) :
  bits2bytes (b7 :: b6 :: b5 :: b4 :: b3 :: b2 :: b1 :: b0 :: cells)
  = if forallb is_bit [b7; b6; b5; b4; b3; b2; b1; b0]
    then match bits2bytes cells with
         | Some out =>
             Some (int2byte (bits2integer_unsigned [b7; b6; b5; b4; b3; b2; b1; b0]) :: out)
         | None => None
         end
    else None.
Proof. reflexivity. Qed.

Lemma bits2bytes_nil : bits2bytes [] = Some [].
Proof. reflexivity. Qed.

Lemma pack_low2 (c : byte) :
  forallb is_bit [x00; x00; x00; x00; x00; x00; bit_of c 1; bit_of c 0] = true
  /\ int2byte (bits2integer_unsigned
                 [x00; x00; x00; x00; x00; x00; bit_of c 1; bit_of c 0])
     = clear_bits c 0x03.
Proof. destruct c; vm_compute; auto. Qed.

Lemma pack_low4 (c : byte) :
  forallb is_bit [x00; x00; x00; x00; bit_of c 3; bit_of c 2; bit_of c 1; bit_of c 0] = true
  /\ int2byte (bits2integer_unsigned
                 [x00; x00; x00; x00; bit_of c 3; bit_of c 2; bit_of c 1; bit_of c 0])
     = clear_bits c 0x0F.
Proof. destruct c; vm_compute; auto. Qed.

Lemma pack_tfhd_f2 (c : byte) :
  forallb is_bit [x00; x00; bit_of c 5; bit_of c 4; bit_of c 3; x00; bit_of c 1; bit_of c 0]
  = true
  /\ int2byte (bits2integer_unsigned
                 [x00; x00; bit_of c 5; bit_of c 4; bit_of c 3; x00; bit_of c 1; bit_of c 0])
     = clear_bits c 0x3B.
Proof. destruct c; vm_compute; auto. Qed.

Lemma pack_zero :
  forallb is_bit [x00; x00; x00; x00; x00; x00; x00; x00] = true
  /\ int2byte (bits2integer_unsigned [x00; x00; x00; x00; x00; x00; x00; x00]) = x00.
Proof. vm_compute; auto. Qed.

Lemma pack_byte (c : byte) :
  forallb is_bit [bit_of c 7; bit_of c 6; bit_of c 5; bit_of c 4;
                  bit_of c 3; bit_of c 2; bit_of c 1; bit_of c 0] = true
  /\ int2byte (bits2integer_unsigned
                 [bit_of c 7; bit_of c 6; bit_of c 5; bit_of c 4;
                  bit_of c 3; bit_of c 2; bit_of c 1; bit_of c 0]) = c.
Proof. split; [apply (byte2bits_is_bit c)|apply (pack_byte2bits c)]. Qed.

(** The cell a flag is written as. *)
Ltac fold_bit_of :=
  repeat match goal with
    | |- context [if bit ?c ?i then x01 else x00] =>
        change (if bit c i then x01 else x00) with (bit_of c i)
    end.

Ltac cells :=
  repeat match goal with
    | |- context [repeat_byte ?c ?n] =>
        let v := eval vm_compute in (repeat_byte c n) in
        change (repeat_byte c n) with v
    | |- context [repeat ?c (Pos.to_nat ?n)] =>
        let v := eval vm_compute in (repeat c (Pos.to_nat n)) in
        change (repeat c (Pos.to_nat n)) with v
    end;
  cbn [app]; fold_bit_of.

(** The bytes of a list of bit cells, group by group. *)
Ltac pack :=
  rewrite ?bits2bytes_cons8, ?bits2bytes_nil;
  repeat match goal with
    | |- context [forallb is_bit [x00; x00; x00; x00; x00; x00; bit_of ?c 1; bit_of ?c 0]] =>
        rewrite (proj1 (pack_low2 c)), (proj2 (pack_low2 c))
    | |- context [forallb is_bit [x00; x00; x00; x00; bit_of ?c 3; bit_of ?c 2;
                                  bit_of ?c 1; bit_of ?c 0]] =>
        rewrite (proj1 (pack_low4 c)), (proj2 (pack_low4 c))
    | |- context [forallb is_bit [x00; x00; bit_of ?c 5; bit_of ?c 4; bit_of ?c 3; x00;
                                  bit_of ?c 1; bit_of ?c 0]] =>
        rewrite (proj1 (pack_tfhd_f2 c)), (proj2 (pack_tfhd_f2 c))
    | |- context [forallb is_bit [x00; x00; x00; x00; x00; x00; x00; x00]] =>
        rewrite (proj1 pack_zero), (proj2 pack_zero)
    | |- context [forallb is_bit [bit_of ?c 7; bit_of ?c 6; bit_of ?c 5; bit_of ?c 4;
                                  bit_of ?c 3; bit_of ?c 2; bit_of ?c 1; bit_of ?c 0]] =>
        rewrite (proj1 (pack_byte c)), (proj2 (pack_byte c))
    end.

Lemma build_tfhd_flags (x : tfhd) (ctx : context) :
  build (BitStruct TrackFragmentHeaderBox_flags) (tfhd_flags_value x) ctx
  = Ok (tfhd_flags_value x,
        [clear_bits (tfhd_f0 x) 0x03; x00; clear_bits (tfhd_f2 x) 0x3B]).
Proof.
  destruct x as [ver f0 f1 f2 track bdo sdi dsd dss dsf].
  unfold TrackFragmentHeaderBox_flags. unfold_tfhd. cbn. cells. pack.
  reflexivity.
Qed.

Lemma Bitwise_sized (subcon : Construct) (size : Z) :
  sizeof subcon = Some size ->
  Bitwise subcon = Transformed subcon bytes2bits (size / 8) bits2bytes (size / 8).
Proof. intros H. unfold Bitwise. now rewrite H. Qed.

Lemma build_Padding (n : Z) (v : value) (ctx : context) :
  0 <= n -> build (Padding n) v ctx = Ok (v, repeat_byte x00 n).
Proof.
  intros H. unfold Padding. cbn [build Padded Pass bind List.length].
  destruct (n <? 0) eqn:E; [lia|]. rewrite Z.sub_0_r, E. reflexivity.
Qed.

Lemma build_Flag_bit (c : byte) (i : Z) (ctx : context) :
  build Flag (VBool (bit c i)) ctx = Ok (VBool (bit c i), [bit_of c i]).
Proof. reflexivity. Qed.

Lemma build_Default_Flag_bit (c : byte) (i : Z) (d : value) (ctx : context) :
  build (Default Flag d) (VBool (bit c i)) ctx = Ok (VBool (bit c i), [bit_of c i]).
Proof. reflexivity. Qed.

Lemma build_Default_BitsInteger (n : nat) (cells : bytes) (d : value) (ctx : context) :
  forallb is_bit cells = true -> List.length cells = n ->
  build (Default (BitsInteger n) d) (VInt (bits2integer cells false)) ctx
  = Ok (VInt (bits2integer cells false), cells).
Proof. intros H1 H2. cbn [build Default]. now apply build_BitsInteger_cells. Qed.

(** A two-bit enumeration that names all four values. *)
Lemma build_Default_Enum2 (m : list (string * Z)) (a b : byte) (i j : Z)
    (d : value) (ctx : context) :
  (forall z, 0 <= z <= 3 ->
             exists name, enum_name m z = Some name /\ enum_value m name = Some z) ->
  build (Default (Enum (BitsInteger 2) m) d)
        (enum_decode m (bits2integer [bit_of a i; bit_of b j] false)) ctx
  = Ok (enum_decode m (bits2integer [bit_of a i; bit_of b j] false),
        [bit_of a i; bit_of b j]).
Proof.
  intros Hm. set (cells := [bit_of a i; bit_of b j]).
  assert (Hb : forallb is_bit cells = true).
  { unfold cells. cbn [forallb]. now rewrite !is_bit_bit_of. }
  pose proof (bits2integer_unsigned_range cells Hb) as Hr.
  change (2 ^ Z.of_nat (List.length cells)) with 4 in Hr.
  assert (Hz : 0 <= bits2integer cells false <= 3).
  { unfold bits2integer. cbn [andb]. lia. }
  destruct (Hm _ Hz) as (name & Hn & Hv).
  unfold enum_decode. rewrite Hn.
  cbn [build Default Enum Adapter]. rewrite Hv. cbn [option_map of_option bind].
  rewrite (build_BitsInteger_cells 2 cells) by auto. reflexivity.
Qed.

Lemma enum_names_all (m : list (string * Z)) :
  (exists n0 n1 n2 n3,
      enum_name m 0 = Some n0 /\ enum_value m n0 = Some 0
      /\ enum_name m 1 = Some n1 /\ enum_value m n1 = Some 1
      /\ enum_name m 2 = Some n2 /\ enum_value m n2 = Some 2
      /\ enum_name m 3 = Some n3 /\ enum_value m n3 = Some 3) ->
  forall z, 0 <= z <= 3 ->
            exists name, enum_name m z = Some name /\ enum_value m name = Some z.
Proof.
  intros (n0 & n1 & n2 & n3 & H) z Hz.
  assert (Hc : z = 0 \/ z = 1 \/ z = 2 \/ z = 3) by lia.
  destruct Hc as [-> | [-> | [-> | ->]]]; eexists; intuition eauto.
Qed.

Ltac enum_ok := apply enum_names_all; do 4 eexists; cbn; repeat split; reflexivity.

Ltac struct_step :=
  cbn [Struct_build getitem setitem update fold_left String.eqb Ascii.eqb Bool.eqb
       bind named anon fst snd app].

Lemma flagbuildnone_Padding (n : Z) : flagbuildnone (Padding n) = true.
Proof. reflexivity. Qed.

Ltac bit_cells_ok := cbn [forallb]; rewrite ?is_bit_bit_of; reflexivity.

(** The fields of a bit structure, one build after the other. *)
Ltac build_bits :=
  struct_step; rewrite ?flagbuildnone_Padding; cbn [bind];
  repeat (first [ rewrite build_Padding by lia
                | rewrite build_Default_Enum2 by enum_ok
                | rewrite build_Default_BitsInteger by (bit_cells_ok || reflexivity)
                | rewrite build_Default_Flag_bit
                | rewrite build_Flag_bit ];
          cbn [bind setitem String.eqb Ascii.eqb Bool.eqb app]).

Lemma build_TrackSampleFlags (d : bytes) (ctx : context) :
  List.length d = 4%nat ->
  build TrackSampleFlags (TrackSampleFlags_value d) ctx
  = Ok (TrackSampleFlags_value d, TrackSampleFlags_canonical d).
Proof.
  intros H. destruct d as [|a [|b [|c [|e [|]]]]]; try discriminate H.
  remember (build TrackSampleFlags) as B eqn:HB.
  unfold TrackSampleFlags_value, TrackSampleFlags_canonical, TrackSampleFlags.
  run_bits. subst B.
  unfold TrackSampleFlags, BitStruct. erewrite Bitwise_sized by reflexivity.
  cbn [build Transformed Struct]. build_bits. cells. pack. reflexivity.
Qed.

(** ** Building [tfhd] *)

Lemma build_ConstBytes (tag : bytes) (ctx : context) :
  build (ConstBytes tag) (VBytes tag) ctx = Ok (VBytes tag, tag).
Proof.
  unfold ConstBytes. cbn [build Const Bytes eq_literal value_of_literal bind].
  rewrite bytes_eqb_refl, Z.eqb_refl. reflexivity.
Qed.

Lemma build_FormatField_bytes (w : nat) (signed : bool) (d : bytes) (ctx : context) :
  List.length d = w ->
  build (FormatField w signed) (VInt (bytes2integer d signed)) ctx
  = Ok (VInt (bytes2integer d signed), d).
Proof.
  intros <-. cbn [build FormatField as_int].
  rewrite integer2bytes_bytes2integer. reflexivity.
Qed.

Lemma build_opt_FormatField (b : bool) (w : nat) (signed : bool) (d : bytes)
    (ctx : context) :
  chunk_ok b d w ->
  build (if b then FormatField w signed else Pass) (opt_int b signed d) ctx
  = Ok (opt_int b signed d, opt b d).
Proof.
  intros H. unfold opt_int, opt. destruct b.
  - apply build_FormatField_bytes. now apply H.
  - reflexivity.
Qed.

Lemma build_opt_TrackSampleFlags (b : bool) (d : bytes) (ctx : context) :
  chunk_ok b d 4 ->
  build (if b then TrackSampleFlags else Pass)
        (if b then TrackSampleFlags_value d else VNone) ctx
  = Ok ((if b then TrackSampleFlags_value d else VNone),
        opt b (TrackSampleFlags_canonical d)).
Proof.
  intros H. unfold opt. destruct b.
  - apply build_TrackSampleFlags. now apply H.
  - reflexivity.
Qed.

Lemma bit_clear_tfhd_f2 (c : byte) :
  bit (clear_bits c 0x3B) 0 = bit c 0 /\ bit (clear_bits c 0x3B) 1 = bit c 1
  /\ bit (clear_bits c 0x3B) 3 = bit c 3 /\ bit (clear_bits c 0x3B) 4 = bit c 4
  /\ bit (clear_bits c 0x3B) 5 = bit c 5.
Proof. destruct c; vm_compute; auto. Qed.

Lemma bit_clear_tfhd_f0 (c : byte) :
  bit (clear_bits c 0x03) 0 = bit c 0 /\ bit (clear_bits c 0x03) 1 = bit c 1.
Proof. destruct c; vm_compute; auto. Qed.

(** An [If] whose condition is a flag of the structure being built. *)
Ltac if_step :=
  cbn [build If IfThenElse this this_ tl getattr_path getitem String.eqb Ascii.eqb
       Bool.eqb bind truthy];
  unfold Int64ub, Int32ub, Int32sb;
  first [ rewrite build_opt_FormatField by assumption
        | rewrite build_opt_TrackSampleFlags by assumption ];
  cbn [bind setitem String.eqb Ascii.eqb Bool.eqb app].

Lemma build_tfhd (x : tfhd) (ctx : context) :
  tfhd_ok x ->
  build TrackFragmentHeaderBox (tfhd_value x) ctx
  = Ok (tfhd_value x, tfhd_wire (tfhd_canonical x)).
Proof.
  intros (Ht & H1 & H2 & H3 & H4 & H5).
  unfold tfhd_wire, base_data_offset_present, sample_description_index_present,
    default_sample_duration_present, default_sample_size_present,
    default_sample_flags_present in *.
  cbn [tfhd_canonical tfhd_version tfhd_f0 tfhd_f1 tfhd_f2 tfhd_track_ID
       tfhd_base_data_offset tfhd_sample_description_index
       tfhd_default_sample_duration tfhd_default_sample_size
       tfhd_default_sample_flags].
  destruct (bit_clear_tfhd_f2 (tfhd_f2 x)) as (-> & -> & -> & -> & ->).
  unfold TrackFragmentHeaderBox, tfhd_value. cbn [build Struct]. struct_step.
  rewrite build_ConstBytes. cbn [bind setitem String.eqb Ascii.eqb Bool.eqb app].
  unfold Int8ub, Int32ub.
  rewrite (build_FormatField_bytes 1) by reflexivity.
  cbn [bind setitem String.eqb Ascii.eqb Bool.eqb app].
  rewrite build_tfhd_flags. cbn [bind setitem String.eqb Ascii.eqb Bool.eqb app].
  rewrite (build_FormatField_bytes 4) by assumption.
  cbn [bind setitem String.eqb Ascii.eqb Bool.eqb app].
  unfold tfhd_flags_value, base_data_offset_present, sample_description_index_present,
    default_sample_duration_present, default_sample_size_present,
    default_sample_flags_present.
  do 5 if_step.
  rewrite <- !app_assoc. reflexivity.
Qed.

(** ** The flags of [tfhd] *)




